(** * Session store and chat turn pipeline of [server.js]

    A shallow embedding of the in-memory session server: the [sessions]
    map, [getMessageHistory], the expiry sweep and the HTTP handlers for
    creating, querying, clearing, configuring and deleting a session and for
    running one chat turn.

    Conventions.
    - A JavaScript string is the sequence of its UTF-16 code units.
    - A JavaScript number received in a JSON body is a rational: JSON has no
      literal for NaN, and the comparisons of the handlers are exact on them.
    - [new Date()] is read from the clock once per handler; dates are
      milliseconds and [a - b] on dates is the difference in milliseconds.
    - A handler runs from its first line to its response without another
      handler in between. The chat handler is also given in two phases, the
      code before [invoke] and the [invoke] itself, so that a store changed
      in between can be described. *)

From Stdlib Require Import ZArith QArith List Sorted Ascii String Lia Lqa.
From stdpp Require Import base option list gmap.

Local Open Scope Z_scope.

(** ** JavaScript values *)

Module Js.

(** A string as UTF-16 code units. *)
Definition jsstring : Type := list N.

(** Code units of a string literal whose characters are all ASCII. *)
Fixpoint lit (s : string) : jsstring :=
  match s with
  | EmptyString => []
  | String a r => N_of_ascii a :: lit r
  end.

(** ECMAScript [WhiteSpace] and [LineTerminator] code points, the ones
    [String.prototype.trim] strips. *)
Definition is_white (c : N) : bool :=
  ((c =? 9) || (c =? 10) || (c =? 11) || (c =? 12) || (c =? 13) || (c =? 32)
   || (c =? 160) || (c =? 5760) || ((8192 <=? c) && (c <=? 8202))
   || (c =? 8232) || (c =? 8233) || (c =? 8239) || (c =? 8287)
   || (c =? 12288) || (c =? 65279))%N.

Fixpoint trimStart (s : jsstring) : jsstring :=
  match s with
  | [] => []
  | c :: r => if is_white c then trimStart r else s
  end.

Definition trimEnd (s : jsstring) : jsstring := rev (trimStart (rev s)).

(** [s.trim()] *)
Definition trim (s : jsstring) : jsstring := trimEnd (trimStart s).

(** A value of a parsed JSON body; [JObject] stands for any array or
    object, whose contents no handler looks at. *)
Inductive value : Type :=
| JUndefined
| JNull
| JBool (b : bool)
| JNum (q : Q)
| JStr (s : jsstring)
| JObject.

(** [!v] *)
Definition falsy (v : value) : bool :=
  match v with
  | JUndefined | JNull => true
  | JBool b => negb b
  | JNum q => Qeq_bool q 0
  | JStr s => match s with [] => true | _ => false end
  | JObject => false
  end.

(** [a < b] on numbers *)
Definition Qlt_bool (a b : Q) : bool := negb (Qle_bool b a).

(** [v !== undefined] *)
Definition defined (v : value) : bool :=
  match v with JUndefined => false | _ => true end.

(** [s || d] on strings *)
Definition str_or (s d : jsstring) : jsstring :=
  match s with [] => d | _ => s end.

End Js.

Import Js.

(** ** Messages, sessions and the store *)

Inductive Message : Type :=
| SystemMessage (content : jsstring)
| HumanMessage (content : jsstring)
| AIMessage (content : jsstring).

Inductive MessageType : Type := system | human | ai.

(** [msg._getType()] *)
Definition _getType (m : Message) : MessageType :=
  match m with
  | SystemMessage _ => system
  | HumanMessage _ => human
  | AIMessage _ => ai
  end.

Definition content (m : Message) : jsstring :=
  match m with
  | SystemMessage c | HumanMessage c | AIMessage c => c
  end.

(** The object stored under a session id; [messageHistory] holds the
    [messages] of the session's [ChatMessageHistory]. *)
Record Session : Type := mkSession {
  messageHistory : list Message;
  systemPrompt : jsstring;
  temperature : Q;
  createdAt : Z;
  lastActivity : Z
}.

Definition set_messageHistory (h : list Message) (s : Session) : Session :=
  mkSession h (systemPrompt s) (temperature s) (createdAt s) (lastActivity s).
Definition set_systemPrompt (p : jsstring) (s : Session) : Session :=
  mkSession (messageHistory s) p (temperature s) (createdAt s) (lastActivity s).
Definition set_temperature (t : Q) (s : Session) : Session :=
  mkSession (messageHistory s) (systemPrompt s) t (createdAt s) (lastActivity s).
Definition set_lastActivity (d : Z) (s : Session) : Session :=
  mkSession (messageHistory s) (systemPrompt s) (temperature s) (createdAt s) d.

(** [const sessions = new Map()] *)
Abbreviation Sessions := (gmap jsstring Session).

(** ['Você é um assistente útil e prestativo.'] *)
Definition default_system_prompt : jsstring :=
  lit "Voc" ++ [234%N] ++ lit " " ++ [233%N] ++ lit " um assistente "
    ++ [250%N] ++ lit "til e prestativo.".

(** [0.5] *)
Definition default_temperature : Q := 1 # 2.

(** The object literal both [getMessageHistory] and the new-session handler
    store. *)
Definition new_session_object (now : Z) : Session :=
  {| messageHistory := [];
     systemPrompt := default_system_prompt;
     temperature := default_temperature;
     createdAt := now;
     lastActivity := now |}.

(** [getMessageHistory(sessionId)]: the store afterwards and the messages of
    the history object it returns. *)
Definition getMessageHistory (sessionId : jsstring) (now : Z)
    (sessions : Sessions) : Sessions * list Message :=
  match sessions !! sessionId with
  | None =>
      (<[sessionId := new_session_object now]> sessions, [])
  | Some session =>
      (<[sessionId := set_lastActivity now session]> sessions,
       messageHistory session)
  end.

(** ** Expiry sweep *)

(** [(now - session.lastActivity) / 1000 / 60], in minutes. The divisions
    are exact here; on a difference in whole milliseconds the comparison
    with 30 below has the same outcome in double arithmetic. *)
Definition inactiveTime (now : Z) (session : Session) : Q :=
  (inject_Z (now - lastActivity session) / 1000 / 60)%Q.

Definition inactive_limit_minutes : Q := 30.

(** [inactiveTime > 30] *)
Definition expired (now : Z) (session : Session) : bool :=
  negb (Qle_bool (inactiveTime now session) inactive_limit_minutes).

(** One run of the [setInterval] callback: every entry of the map is
    visited and the expired ones are deleted from it. *)
Definition reaper (now : Z) (sessions : Sessions) : Sessions :=
  map_fold
    (fun sessionId session acc =>
       if expired now session then delete sessionId acc else acc)
    sessions sessions.

(** [5 * 60 * 1000], the period of the sweep in milliseconds. *)
Definition reaper_period_ms : Z := 5 * 60 * 1000.

(** ** Prompt template and model *)

Inductive Segment : Type :=
| Text (s : jsstring)
| Var (name : string).

Inductive PromptItem : Type :=
| FromTemplate (role : MessageType) (template : list Segment)
| MessagesPlaceholder (variableName : string).

(** [ChatPromptTemplate.fromMessages([...])] *)
Definition prompt : list PromptItem :=
  [ FromTemplate system [Var "system_prompt"];
    MessagesPlaceholder "chat_history";
    FromTemplate human [Var "input"] ].

(** The values a chain is invoked with: the two keys the chat handler passes
    and the history the wrapper adds under [historyMessagesKey]. *)
Record ChainInput : Type := mkChainInput {
  input : jsstring;
  system_prompt : jsstring;
  chat_history : list Message
}.

Definition text_variable (name : string) (v : ChainInput) : option jsstring :=
  if String.eqb name "input" then Some (input v)
  else if String.eqb name "system_prompt" then Some (system_prompt v)
  else None.

Definition messages_variable (name : string) (v : ChainInput)
  : option (list Message) :=
  if String.eqb name "chat_history" then Some (chat_history v) else None.

Definition message_of (role : MessageType) (c : jsstring) : Message :=
  match role with
  | system => SystemMessage c
  | human => HumanMessage c
  | ai => AIMessage c
  end.

Fixpoint formatTemplate (t : list Segment) (v : ChainInput) : option jsstring :=
  match t with
  | [] => Some []
  | Text s :: r => app s <$> formatTemplate r v
  | Var x :: r =>
      match text_variable x v, formatTemplate r v with
      | Some s, Some rest => Some (s ++ rest)
      | _, _ => None
      end
  end.

(** Modelled from the spec: [ChatPromptTemplate.formatMessages] of the
    LangChain library, which is not in the source tree. Each template item
    yields its message with the variables substituted, a placeholder yields
    the messages bound to it, in the order of the items; a variable that is
    not bound is an error ([None]). *)
Fixpoint formatMessages (items : list PromptItem) (v : ChainInput)
  : option (list Message) :=
  match items with
  | [] => Some []
  | FromTemplate role t :: r =>
      match formatTemplate t v, formatMessages r v with
      | Some c, Some rest => Some (message_of role c :: rest)
      | _, _ => None
      end
  | MessagesPlaceholder x :: r =>
      match messages_variable x v, formatMessages r v with
      | Some ms, Some rest => Some (ms ++ rest)
      | _, _ => None
      end
  end.

(** The options a [ChatOpenAI] is built with. *)
Record ModelConfig : Type := mkModelConfig {
  modelName : string;
  model_temperature : Q;
  maxTokens : option Z
}.

(** [const model = new ChatOpenAI({...})] *)
Definition model : ModelConfig :=
  {| modelName := "gpt-4.1-nano";
     model_temperature := 1 # 2;
     maxTokens := Some 2000 |}.

(** [const customModel = new ChatOpenAI({...})] of the chat handler *)
Definition customModel (session : Session) : ModelConfig :=
  {| modelName := "gpt-4.1-nano";
     model_temperature := temperature session;
     maxTokens := None |}.

(** What the completion service answers to one call. *)
Inductive BackendResult : Type :=
| Completion (content : jsstring)
| BackendFailure (message : jsstring).

(** The completion service: any function of the model options and of the
    messages it is sent. *)
Definition Backend : Type := ModelConfig -> list Message -> BackendResult.

(** One call made to the service. *)
Definition BackendCall : Type := (ModelConfig * list Message)%type.

(** [history.addMessages(msgs)] on the history object of session
    [sessionId]. *)
Definition addMessages (sessionId : jsstring) (msgs : list Message)
    (sessions : Sessions) : Sessions :=
  alter (fun s => set_messageHistory (messageHistory s ++ msgs) s)
    sessionId sessions.

(** Modelled from the spec: [RunnableWithMessageHistory.invoke] of the
    LangChain library, which is not in the source tree. It fetches the
    history through the [getMessageHistory] it was built with, runs
    [prompt.pipe(model)] on the input extended with that history, and when
    the run ends without error appends the input as a human message and the
    model's answer to the history; when the run fails the history is left as
    it was and the error is thrown to the caller. *)
Definition invoke (cfg : ModelConfig) (backend : Backend)
    (inp sys : jsstring) (sessionId : jsstring) (now : Z)
    (sessions : Sessions) : Sessions * BackendResult * list BackendCall :=
  let '(sessions1, history) := getMessageHistory sessionId now sessions in
  match formatMessages prompt (mkChainInput inp sys history) with
  | None => (sessions1, BackendFailure (lit "Missing value for input variable"), [])
  | Some messages =>
      match backend cfg messages with
      | Completion c =>
          (addMessages sessionId [HumanMessage inp; AIMessage c] sessions1,
           Completion c, [(cfg, messages)])
      | BackendFailure e =>
          (sessions1, BackendFailure e, [(cfg, messages)])
      end
  end.

(** ** Responses *)

Record HistoryEntry : Type := mkHistoryEntry {
  entry_type : MessageType;
  entry_content : jsstring
}.

(** The JSON objects the handlers send. *)
Inductive Body : Type :=
| ExistsTrue (sessionId : jsstring) (created last : Z) (messageCount : nat)
| ExistsFalse (sessionId : jsstring)
| SessionCreated (sessionId : jsstring) (message : string)
| ChatReply (sessionId : jsstring) (response : jsstring) (timestamp : Z)
| HistoryReply (sessionId : jsstring) (messageCount : nat)
    (messages : list HistoryEntry) (sysPrompt : jsstring) (temp : Q)
    (created last : Z)
| Done (message : string) (sessionId : jsstring)
| ConfigReply (message : string) (sessionId : jsstring)
    (sysPrompt : jsstring) (temp : Q)
| Error (error : string) (details : option jsstring).

Record Response : Type := mkResponse {
  status : Z;
  body : Body
}.

(** [res.json(b)] and [res.status(c).json(b)] *)
Definition json (b : Body) : Response := mkResponse 200 b.
Definition status_json (c : Z) (b : Body) : Response := mkResponse c b.

(** The error classes of the specification, as the handlers report them. *)
Definition InvalidArgument (r : Response) : Prop := status r = 400.
Definition NotFound (r : Response) : Prop := status r = 404.
Definition BackendError (r : Response) : Prop := status r = 500.

(** ** Handlers with early return

    A handler body is a function of the store that either has sent its
    response ([inl]) or goes on with a value ([inr]). *)

Definition Handler (A : Type) : Type := Sessions -> Sessions * (Response + A).

Definition pure {A} (a : A) : Handler A := fun σ => (σ, inr a).

(** [return res...] *)
Definition send {A} (r : Response) : Handler A := fun σ => (σ, inl r).

Definition bind {A B} (h : Handler A) (k : A -> Handler B) : Handler B :=
  fun σ =>
    match h σ with
    | (σ1, inl r) => (σ1, inl r)
    | (σ1, inr a) => k a σ1
    end.

Declare Scope handler_scope.
Delimit Scope handler_scope with handler.
Notation "'let*' x := h 'in' k" := (bind h (fun x => k))
  (at level 10, x name, h at level 100, k at level 200) : handler_scope.
Notation "h >> k" := (bind h (fun _ => k))
  (at level 65, right associativity) : handler_scope.

(** [if (c) { return res... }] *)
Definition return_if (c : bool) (r : Response) : Handler unit :=
  if c then send r else pure tt.

(** [if (!sessions.has(id)) { return res... }  session = sessions.get(id)] *)
Definition session_or (sessionId : jsstring) (r : Response) : Handler Session :=
  fun σ =>
    match σ !! sessionId with
    | None => (σ, inl r)
    | Some session => (σ, inr session)
    end.

(** A field assignment on the session object stored under [sessionId]. *)
Definition assign (sessionId : jsstring) (f : Session -> Session)
  : Handler unit :=
  fun σ => (alter f sessionId σ, inr tt).

(** The session object as it is now. *)
Definition deref (sessionId : jsstring) (session : Session) : Handler Session :=
  fun σ => (σ, inr (default session (σ !! sessionId))).

Definition run (h : Handler Response) (σ : Sessions) : Sessions * Response :=
  match h σ with
  | (σ1, inl r) | (σ1, inr r) => (σ1, r)
  end.

Local Open Scope handler_scope.

(** ** Routes *)

(** [GET /api/session/:sessionId/exists] *)
Definition session_exists (sessionId : jsstring) (sessions : Sessions)
  : Sessions * Response :=
  match sessions !! sessionId with
  | Some session =>
      (sessions,
       json (ExistsTrue sessionId (createdAt session) (lastActivity session)
               (length (messageHistory session))))
  | None => (sessions, json (ExistsFalse sessionId))
  end.

(** [POST /api/session/new]; [sessionId] is what [uuidv4()] returned. *)
Definition session_new (sessionId : jsstring) (now : Z) (sessions : Sessions)
  : Sessions * Response :=
  (<[sessionId := new_session_object now]> sessions,
   json (SessionCreated sessionId "Sessão criada com sucesso")).

(** [temperature !== undefined &&
     (typeof temperature !== 'number' || temperature < 0 || temperature > 2)] *)
Definition temperature_refused (temperature : value) : bool :=
  defined temperature &&
  match temperature with
  | JNum t => Qlt_bool t 0 || Qlt_bool 2 t
  | _ => true
  end.

(** [systemPrompt !== undefined && typeof systemPrompt !== 'string'] *)
Definition systemPrompt_refused (systemPrompt : value) : bool :=
  defined systemPrompt &&
  match systemPrompt with
  | JStr _ => false
  | _ => true
  end.

(** [PUT /api/session/:sessionId/config]; the two arguments are the
    [systemPrompt] and [temperature] of [req.body]. *)
Definition update_config (sessionId : jsstring)
    (req_systemPrompt req_temperature : value) : Handler Response :=
  let* session := session_or sessionId
    (status_json 404 (Error "Sessão não encontrada" None)) in
  match req_systemPrompt with
  | JUndefined => pure tt
  | JStr s => assign sessionId (set_systemPrompt s)
  | _ => send (status_json 400 (Error "systemPrompt deve ser uma string" None))
  end >>
  match req_temperature with
  | JUndefined => pure tt
  | JNum t =>
      return_if (Qlt_bool t 0 || Qlt_bool 2 t)
        (status_json 400
           (Error "temperature deve ser um número entre 0 e 2" None)) >>
      assign sessionId (set_temperature t)
  | _ => send (status_json 400
                 (Error "temperature deve ser um número entre 0 e 2" None))
  end >>
  let* session := deref sessionId session in
  pure (json (ConfigReply "Configurações atualizadas com sucesso" sessionId
                (systemPrompt session) (temperature session))).

(** [GET /api/session/:sessionId/history] *)
Definition session_history (sessionId : jsstring) : Handler Response :=
  let* session := session_or sessionId
    (status_json 404 (Error "Sessão não encontrada" None)) in
  let messages := messageHistory session in
  pure (json (HistoryReply sessionId (length messages)
                (map (fun msg => mkHistoryEntry (_getType msg) (content msg))
                   messages)
                (systemPrompt session) (temperature session)
                (createdAt session) (lastActivity session))).

(** [DELETE /api/session/:sessionId/clear] *)
Definition session_clear (sessionId : jsstring) : Handler Response :=
  let* session := session_or sessionId
    (status_json 404 (Error "Sessão não encontrada" None)) in
  assign sessionId (set_messageHistory []) >>
  pure (json (Done "Histórico limpo com sucesso" sessionId)).

(** [DELETE /api/session/:sessionId] *)
Definition session_delete (sessionId : jsstring) : Handler Response :=
  let* session := session_or sessionId
    (status_json 404 (Error "Sessão não encontrada" None)) in
  (fun σ => (delete sessionId σ, inr tt)) >>
  pure (json (Done "Sessão deletada com sucesso" sessionId)).

(** [GET /api/status]: [sessions.size] *)
Definition activeSessions (sessions : Sessions) : nat := size sessions.

(** *** [POST /api/chat] *)

(** [req.body] of a chat request. *)
Record ChatBody : Type := mkChatBody {
  body_sessionId : value;
  body_message : value;
  body_temperature : value;
  body_systemPrompt : value
}.

(** What the handler holds when it reaches [invoke]: the id, the message,
    the fields read from its [session] object and the chain chosen. *)
Record Prepared : Type := mkPrepared {
  p_sessionId : jsstring;
  p_message : jsstring;
  p_system_prompt : jsstring;
  p_model : ModelConfig
}.

(** [!message || message.trim() === ''], where [trim] exists on strings
    only: on another truthy value the call throws and the [catch] block
    answers 500. *)
Definition check_message (message : value) : Handler jsstring :=
  if falsy message then
    send (status_json 400 (Error "message não pode estar vazio" None))
  else
    match message with
    | JStr m =>
        match trim m with
        | [] => send (status_json 400 (Error "message não pode estar vazio" None))
        | _ => pure m
        end
    | _ => send (status_json 500
                   (Error "Erro ao processar mensagem"
                      (Some (lit "message.trim is not a function"))))
    end.

(** [if (!sessions.has(sessionId)) return 404; session = sessions.get(sessionId)]
    for a [sessionId] taken from the body: the keys of the map are strings. *)
Definition body_session_or (sessionId : value) (r : Response)
  : Handler (jsstring * Session) :=
  match sessionId with
  | JStr sid => let* session := session_or sid r in pure (sid, session)
  | _ => send r
  end.

(** The handler up to the call of [invoke]. *)
Definition chat_prepare (b : ChatBody) : Handler Prepared :=
  return_if (systemPrompt_refused (body_systemPrompt b))
    (status_json 400 (Error "systemPrompt deve ser uma string" None)) >>
  return_if (temperature_refused (body_temperature b))
    (status_json 400
       (Error "temperature deve ser um número entre 0 e 2" None)) >>
  return_if (falsy (body_sessionId b))
    (status_json 400 (Error "sessionId é obrigatório" None)) >>
  let* message := check_message (body_message b) in
  let* found := body_session_or (body_sessionId b)
    (status_json 404 (Error "Sessão não encontrada ou expirada" None)) in
  let '(sessionId, session) := found in
  match body_systemPrompt b with
  | JStr s =>
      assign sessionId (set_systemPrompt (str_or (trim s) default_system_prompt))
  | _ => pure tt
  end >>
  match body_temperature b with
  | JNum t => assign sessionId (set_temperature t)
  | _ => pure tt
  end >>
  let* session := deref sessionId session in
  let currentModel :=
    if negb (Qeq_bool (temperature session) (1 # 2))
    then customModel session else model in
  pure (mkPrepared sessionId message (systemPrompt session) currentModel).

(** [await currentChainWithHistory.invoke(...)] and the response, or the
    [catch] block when it throws. [now] is the time of the call and
    [replied] the time the answer is sent. *)
Definition chat_invoke (backend : Backend) (p : Prepared) (now replied : Z)
    (sessions : Sessions) : Sessions * Response * list BackendCall :=
  match invoke (p_model p) backend (p_message p) (p_system_prompt p)
          (p_sessionId p) now sessions with
  | (sessions1, Completion c, calls) =>
      (sessions1, json (ChatReply (p_sessionId p) c replied), calls)
  | (sessions1, BackendFailure e, calls) =>
      (sessions1,
       status_json 500 (Error "Erro ao processar mensagem" (Some e)), calls)
  end.

Definition chat (backend : Backend) (b : ChatBody) (now replied : Z)
    (sessions : Sessions) : Sessions * Response * list BackendCall :=
  match chat_prepare b sessions with
  | (sessions1, inl r) => (sessions1, r, [])
  | (sessions1, inr p) => chat_invoke backend p now replied sessions1
  end.

(** ** Definitions used by the statements *)

(** A store with one session, created at time 0 under the id ["s"]. *)
Definition one_session : Sessions := {[ lit "s" := new_session_object 0 ]}.

(** The session object after the two override assignments of the chat
    handler. *)
Definition overridden (b : ChatBody) (s : Session) : Session :=
  let s1 :=
    match body_systemPrompt b with
    | JStr x => set_systemPrompt (str_or (trim x) default_system_prompt) s
    | _ => s
    end in
  match body_temperature b with
  | JNum t => set_temperature t s1
  | _ => s1
  end.

(** The chain the handler picks for a session object. *)
Definition chain_model (s : Session) : ModelConfig :=
  if negb (Qeq_bool (temperature s) (1 # 2)) then customModel s else model.

(** The messages of one turn on session object [s] with user message [m]. *)
Definition turn_messages (s : Session) (m : jsstring) : list Message :=
  [SystemMessage (systemPrompt s)] ++ messageHistory s ++ [HumanMessage m].

(** The three ways a chat request ends: refused before anything is done,
    failed in the completion service, or answered. *)
Inductive ChatRun (backend : Backend) (b : ChatBody) (now replied : Z)
    (σ : Sessions) : Sessions * Response * list BackendCall -> Prop :=
| Refused r :
    status r = 400 \/ status r = 404 \/ status r = 500 ->
    ChatRun backend b now replied σ (σ, r, [])
| Failed sid m s e :
    body_sessionId b = JStr sid ->
    body_message b = JStr m ->
    σ !! sid = Some s ->
    backend (chain_model (overridden b s)) (turn_messages (overridden b s) m)
      = BackendFailure e ->
    ChatRun backend b now replied σ
      (<[sid := set_lastActivity now (overridden b s)]> σ,
       status_json 500 (Error "Erro ao processar mensagem" (Some e)),
       [(chain_model (overridden b s), turn_messages (overridden b s) m)])
| Replied sid m s c :
    body_sessionId b = JStr sid ->
    body_message b = JStr m ->
    σ !! sid = Some s ->
    backend (chain_model (overridden b s)) (turn_messages (overridden b s) m)
      = Completion c ->
    ChatRun backend b now replied σ
      (<[sid := set_messageHistory
                  (messageHistory (overridden b s)
                     ++ [HumanMessage m; AIMessage c])
                  (set_lastActivity now (overridden b s))]> σ,
       json (ChatReply sid c replied),
       [(chain_model (overridden b s), turn_messages (overridden b s) m)]).

(** A completion service that is down. *)
Definition backend_down : Backend :=
  fun _ _ => BackendFailure (lit "connection refused").

(** A completion service that answers every call with ["hi"]. *)
Definition backend_hi : Backend := fun _ _ => Completion (lit "hi").

(** One chat request on a given session, with the clock readings and the
    completion service it meets. *)
Record TurnRequest : Type := mkTurnRequest {
  turn_message : value;
  turn_temperature : value;
  turn_systemPrompt : value;
  turn_backend : Backend;
  turn_now : Z;
  turn_replied : Z
}.

(** The chat requests [turns] on session [sid], one after the other: the
    store at the end and the responses in order. *)
Fixpoint run_turns (sid : jsstring) (turns : list TurnRequest) (σ : Sessions)
  : Sessions * list Response :=
  match turns with
  | [] => (σ, [])
  | t :: rest =>
      let '(σ1, r, _) :=
        chat (turn_backend t)
          (mkChatBody (JStr sid) (turn_message t) (turn_temperature t)
             (turn_systemPrompt t))
          (turn_now t) (turn_replied t) σ in
      let '(σ2, rs) := run_turns sid rest σ1 in
      (σ2, r :: rs)
  end.

(** A history made of human/ai pairs. *)
Fixpoint alternates (h : list Message) : bool :=
  match h with
  | [] => true
  | HumanMessage _ :: AIMessage _ :: rest => alternates rest
  | _ => false
  end.

(** The user message of a request and the reply sent for it. *)
Definition exchange (t : TurnRequest) (r : Response) : list Message :=
  match turn_message t, body r with
  | JStr m, ChatReply _ c _ => [HumanMessage m; AIMessage c]
  | _, _ => []
  end.

Definition is_exchange (t : TurnRequest) (r : Response) : Prop :=
  exists m c, exchange t r = [HumanMessage m; AIMessage c].

(** Two requests on the session ["s"], the second one with overrides. *)
Definition two_turns : list TurnRequest :=
  [ mkTurnRequest (JStr (lit "hello")) JUndefined JUndefined backend_hi 5 6;
    mkTurnRequest (JStr (lit "again")) (JNum 1) (JStr (lit "Be brief"))
      backend_hi 7 8 ].

(** A temperature the specification accepts: a number in [0, 2]. *)
Definition valid_temperature (v : value) : Prop :=
  exists t, v = JNum t /\ (0 <= t)%Q /\ (t <= 2)%Q.

(** A store with the session ["s"], created at time 0, after one turn at
    time 5. *)
Definition talked : Sessions :=
  {[ lit "s" :=
       mkSession [HumanMessage (lit "hello"); AIMessage (lit "hi")]
         default_system_prompt (1 # 2) 0 5 ]}.

(** ** The server as a whole *)

(** One request, or one tick of the sweep timer. [PostNew] carries the id
    [uuidv4()] returns, [PostChat] the completion service the turn meets
    and the time its answer is sent. *)
Inductive Request : Type :=
| GetExists (sessionId : jsstring)
| PostNew (uuid : jsstring)
| PostChat (backend : Backend) (b : ChatBody) (replied : Z)
| GetHistory (sessionId : jsstring)
| DeleteClear (sessionId : jsstring)
| PutConfig (sessionId : jsstring) (req_systemPrompt req_temperature : value)
| DeleteSession (sessionId : jsstring)
| Sweep.

(** The store after the route of [req] has run at time [now]. *)
Definition handle (req : Request) (now : Z) (σ : Sessions) : Sessions :=
  match req with
  | GetExists sid => (session_exists sid σ).1
  | PostNew uuid => (session_new uuid now σ).1
  | PostChat backend b replied => (chat backend b now replied σ).1.1
  | GetHistory sid => (run (session_history sid) σ).1
  | DeleteClear sid => (run (session_clear sid) σ).1
  | PutConfig sid sp t => (run (update_config sid sp t) σ).1
  | DeleteSession sid => (run (session_delete sid) σ).1
  | Sweep => reaper now σ
  end.

(** The store after the requests [reqs], each with the time it is handled
    at, have run in order on the store the server starts with. *)
Definition serve (reqs : list (Request * Z)) : Sessions :=
  fold_left (fun σ '(req, now) => handle req now σ) reqs ∅.

(** Every stored temperature lies in [0, 2]. *)
Definition temperatures_in_range (σ : Sessions) : Prop :=
  forall k s, σ !! k = Some s -> (0 <= temperature s)%Q /\ (temperature s <= 2)%Q.

(** Every stored history is made of human/ai pairs. *)
Definition histories_alternate (σ : Sessions) : Prop :=
  forall k s, σ !! k = Some s -> alternates (messageHistory s) = true.

(** A chat body whose four fields pass the checks of the handler that do
    not look at the store. *)
Definition well_formed (b : ChatBody) (sid m : jsstring) : Prop :=
  body_sessionId b = JStr sid /\ sid <> []
  /\ body_message b = JStr m /\ trim m <> []
  /\ systemPrompt_refused (body_systemPrompt b) = false
  /\ temperature_refused (body_temperature b) = false.

(** A field of a configuration update that the handler accepts. *)
Definition systemPrompt_accepted (v : value) : Prop :=
  v = JUndefined \/ exists x, v = JStr x.
Definition temperature_accepted (v : value) : Prop :=
  v = JUndefined \/ valid_temperature v.

(** The session object after an accepted configuration update. *)
Definition configured (sp t : value) (s : Session) : Session :=
  let s1 := match sp with JStr x => set_systemPrompt x s | _ => s end in
  match t with JNum q => set_temperature q s1 | _ => s1 end.

(** ** Start-up: the address printed by the [app.listen] callback *)

(** An entry of the arrays [os.networkInterfaces()] returns. *)
Record NetworkInterface : Type := mkNetworkInterface {
  family : jsstring;
  internal : bool;
  address : jsstring
}.

(** [iface.family === 'IPv4' && !iface.internal] *)
Definition external_ipv4 (iface : NetworkInterface) : bool :=
  bool_decide (family iface = lit "IPv4") && negb (internal iface).

(** The value of [localIP] after the two nested [forEach] loops; [ifaces]
    lists the interfaces by name in the order of [Object.keys]. *)
Definition localIP (ifaces : list (jsstring * list NetworkInterface))
  : jsstring :=
  fold_left
    (fun localIP '(ifname, entries) =>
       fold_left
         (fun localIP iface =>
            if external_ipv4 iface then address iface else localIP)
         entries localIP)
    ifaces (lit "localhost").

(** * Properties *)

(** ** The expiry sweep *)

Lemma expired_iff (now : Z) (session : Session) :
  expired now session = true <-> now - lastActivity session > 30 * 60 * 1000.
Proof.
  unfold expired, inactiveTime, inactive_limit_minutes.
  rewrite negb_true_iff, <- not_true_iff_false, Qle_bool_iff.
  unfold Qle, Qdiv, Qmult, Qinv; simpl. lia.
Qed.

Lemma sweep_lookup (now : Z) (acc0 m : Sessions) (k : jsstring) :
  map_fold
    (fun sessionId session acc =>
       if expired now session then delete sessionId acc else acc) acc0 m !! k
  = match m !! k with
    | Some s => if expired now s then None else acc0 !! k
    | None => acc0 !! k
    end.
Proof.
  revert k.
  apply (map_fold_weak_ind (fun (r m : Sessions) =>
    forall k : jsstring,
      r !! k = match m !! k with
               | Some s => if expired now s then None else acc0 !! k
               | None => acc0 !! k
               end)).
  - intros k. by rewrite lookup_empty.
  - clear m. intros i x m r Hi IH k. destruct (decide (i = k)) as [->|Hne].
    + rewrite lookup_insert_eq. destruct (expired now x).
      * by rewrite lookup_delete_eq.
      * by rewrite IH, Hi.
    + rewrite lookup_insert_ne by done. destruct (expired now x).
      * rewrite lookup_delete_ne by done. apply IH.
      * apply IH.
Qed.

Lemma reaper_lookup (now : Z) (sessions : Sessions) (k : jsstring) :
  reaper now sessions !! k
  = match sessions !! k with
    | Some s => if expired now s then None else Some s
    | None => None
    end.
Proof.
  unfold reaper. rewrite sweep_lookup.
  destruct (sessions !! k) as [s|] eqn:E; [|done]. by destruct (expired now s).
Qed.

(** C6. For a session present in the store, one pass of the sweep at time
    [now] deletes it if and only if [now - lastActivity] exceeds 30 minutes
    (1 800 000 ms) and otherwise leaves it as it is; in particular a
    session last active 29 minutes ago survives. The sweep is scheduled
    every 5 minutes (300 000 ms). *)
Theorem reaper_deletes_iff_inactive_over_30_minutes
    (now : Z) (sessions : Sessions) (sessionId : jsstring) (session : Session) :
  sessions !! sessionId = Some session ->
  (reaper now sessions !! sessionId = None
     <-> now - lastActivity session > 30 * 60 * 1000)
  /\ (now - lastActivity session <= 30 * 60 * 1000
      -> reaper now sessions !! sessionId = Some session)
  /\ (now - lastActivity session = 29 * 60 * 1000
      -> reaper now sessions !! sessionId = Some session)
  /\ reaper_period_ms = 5 * 60 * 1000
  /\ reaper_period_ms = 300000.
Proof.
  intros Hs. rewrite reaper_lookup, Hs.
  pose proof (expired_iff now session) as E.
  destruct (expired now session); repeat split; try done.
  - intros _. by apply E.
  - intros H. exfalso. assert (now - lastActivity session > 30 * 60 * 1000) by by apply E. lia.
  - intros H. exfalso. assert (now - lastActivity session > 30 * 60 * 1000) by by apply E. lia.
  - intros H. apply E in H. done.
Qed.

Lemma reaper_deletes_iff_inactive_over_30_minutes_witness :
  one_session !! lit "s" = Some (new_session_object 0)
  /\ reaper 1800001 one_session !! lit "s" = None.
Proof.
  split; [reflexivity|].
  apply (reaper_deletes_iff_inactive_over_30_minutes
           1800001 one_session (lit "s") (new_session_object 0)).
  - reflexivity.
  - simpl. lia.
Defined.

(** ** The chat handler *)

Lemma alter_insert_lookup (f : Session -> Session) (σ : Sessions)
    (sid : jsstring) (s : Session) :
  σ !! sid = Some s -> alter f sid σ = <[sid := f s]> σ.
Proof.
  intros H. apply map_eq. intros k. destruct (decide (sid = k)) as [->|Hne].
  - by rewrite lookup_alter_eq, lookup_insert_eq, H.
  - by rewrite lookup_alter_ne, lookup_insert_ne.
Qed.

Lemma chat_prepare_proceeds (b : ChatBody) (σ σ1 : Sessions) (p : Prepared) :
  chat_prepare b σ = (σ1, inr p) ->
  exists sid m s,
    body_sessionId b = JStr sid /\ body_message b = JStr m /\
    σ !! sid = Some s /\
    systemPrompt_refused (body_systemPrompt b) = false /\
    temperature_refused (body_temperature b) = false /\
    σ1 = <[sid := overridden b s]> σ /\
    p = mkPrepared sid m (systemPrompt (overridden b s))
          (chain_model (overridden b s)).
Proof.
  unfold chat_prepare, bind, return_if.
  destruct (systemPrompt_refused (body_systemPrompt b)) eqn:Esp; [discriminate|].
  destruct (temperature_refused (body_temperature b)) eqn:Et; [discriminate|].
  destruct (falsy (body_sessionId b)) eqn:Eid; [discriminate|].
  cbn [pure send].
  unfold check_message.
  destruct (falsy (body_message b)) eqn:Em; [discriminate|].
  destruct (body_message b) as [| |?|?|m|] eqn:Emsg; try discriminate.
  destruct (trim m) eqn:Etrim; [discriminate|]. cbn [pure].
  unfold body_session_or.
  destruct (body_sessionId b) as [| |?|?|sid|] eqn:Esid; try discriminate.
  unfold bind, session_or.
  destruct (σ !! sid) as [s|] eqn:Es; [|discriminate]. cbn [pure].
  intros H. exists sid, m, s. repeat split; try done.
  all: unfold overridden, assign, deref, pure in *.
  all: destruct (body_systemPrompt b) as [| |?|?|x|]; try discriminate;
       destruct (body_temperature b) as [| |?|t|?|]; try discriminate.
  all: simpl in H; inversion H; subst; clear H.
  all: rewrite ?lookup_alter_eq, ?Es; simpl; try done.
  all: rewrite ?(alter_insert_lookup _ _ _ _ Es); try done.
  all: try (by rewrite insert_id).
  erewrite alter_insert_lookup by apply lookup_insert_eq.
  by rewrite insert_insert_eq.
Qed.

Lemma chat_prepare_responds (b : ChatBody) (σ σ1 : Sessions) (r : Response) :
  chat_prepare b σ = (σ1, inl r) ->
  σ1 = σ /\ (status r = 400 \/ status r = 404 \/ status r = 500).
Proof.
  unfold chat_prepare, bind, return_if.
  destruct (systemPrompt_refused (body_systemPrompt b)) eqn:Esp;
    [intros [= <- <-]; simpl; auto|].
  destruct (temperature_refused (body_temperature b)) eqn:Et;
    [intros [= <- <-]; simpl; auto|].
  destruct (falsy (body_sessionId b)) eqn:Eid;
    [intros [= <- <-]; simpl; auto|].
  cbn [pure send]. unfold check_message.
  destruct (falsy (body_message b)) eqn:Em;
    [intros [= <- <-]; simpl; auto|].
  destruct (body_message b) as [| |?|?|m|] eqn:Emsg;
    try (intros [= <- <-]; simpl; by auto).
  destruct (trim m) eqn:Etrim; [intros [= <- <-]; simpl; auto|]. cbn [pure].
  unfold body_session_or.
  destruct (body_sessionId b) as [| |?|?|sid|] eqn:Esid;
    try (intros [= <- <-]; simpl; by auto).
  unfold bind, session_or.
  destruct (σ !! sid) as [s|] eqn:Es; [|intros [= <- <-]; simpl; by auto].
  cbn [pure]. unfold assign, deref, pure.
  destruct (body_systemPrompt b) as [| |?|?|x|]; try discriminate;
    destruct (body_temperature b) as [| |?|t|?|]; discriminate.
Qed.

Lemma formatMessages_prompt (m sp : jsstring) (h : list Message) :
  formatMessages prompt (mkChainInput m sp h)
  = Some ([SystemMessage sp] ++ h ++ [HumanMessage m]).
Proof. simpl. by rewrite !app_nil_r. Qed.

Lemma chat_run (backend : Backend) (b : ChatBody) (now replied : Z)
    (σ : Sessions) :
  ChatRun backend b now replied σ (chat backend b now replied σ).
Proof.
  unfold chat. destruct (chat_prepare b σ) as [σ1 [r|p]] eqn:E.
  - apply chat_prepare_responds in E as [-> H]. by constructor.
  - apply chat_prepare_proceeds in E
      as (sid & m & s & Hsid & Hm & Hs & _ & _ & -> & ->).
    unfold chat_invoke, invoke, getMessageHistory. cbn [p_sessionId p_message
      p_system_prompt p_model]. rewrite lookup_insert_eq, formatMessages_prompt.
    rewrite insert_insert_eq.
    fold (turn_messages (overridden b s) m).
    destruct (backend _ _) as [c|e] eqn:Eb.
    + unfold addMessages.
      erewrite alter_insert_lookup by apply lookup_insert_eq.
      rewrite insert_insert_eq. by eapply Replied.
    + by eapply Failed.
Qed.

Lemma overridden_messageHistory (b : ChatBody) (s : Session) :
  messageHistory (overridden b s) = messageHistory s.
Proof.
  unfold overridden.
  by destruct (body_systemPrompt b), (body_temperature b).
Qed.

Lemma overridden_dates (b : ChatBody) (s : Session) :
  createdAt (overridden b s) = createdAt s
  /\ lastActivity (overridden b s) = lastActivity s.
Proof.
  unfold overridden.
  by destruct (body_systemPrompt b), (body_temperature b).
Qed.

Lemma overridden_systemPrompt (b : ChatBody) (s : Session) :
  systemPrompt (overridden b s)
  = match body_systemPrompt b with
    | JStr x => str_or (trim x) default_system_prompt
    | _ => systemPrompt s
    end.
Proof.
  unfold overridden.
  by destruct (body_systemPrompt b), (body_temperature b).
Qed.

Lemma overridden_temperature (b : ChatBody) (s : Session) :
  temperature (overridden b s)
  = match body_temperature b with
    | JNum t => t
    | _ => temperature s
    end.
Proof.
  unfold overridden.
  by destruct (body_systemPrompt b), (body_temperature b).
Qed.

(** C1, as stated, fails: a turn on the session ["s"] that carries a
    systemPrompt and a temperature and whose backend call fails answers 500,
    and the session holds the new systemPrompt and temperature
    afterwards. *)
Lemma chat_backend_failure_keeps_overrides :
  let b := mkChatBody (JStr (lit "s")) (JStr (lit "hello"))
             (JNum 1) (JStr (lit "Be brief")) in
  exists σ' r call s',
    chat backend_down b 5 6 one_session = (σ', r, [call])
    /\ backend_down (fst call) (snd call) = BackendFailure (lit "connection refused")
    /\ BackendError r
    /\ one_session !! lit "s" = Some (new_session_object 0)
    /\ σ' !! lit "s" = Some s'
    /\ systemPrompt s' = lit "Be brief"
    /\ systemPrompt s' <> systemPrompt (new_session_object 0)
    /\ temperature s' = 1%Q
    /\ ~ (temperature s' == temperature (new_session_object 0))%Q.
Proof.
  intros b.
  exists (chat backend_down b 5 6 one_session).1.1,
         (chat backend_down b 5 6 one_session).1.2.
  do 2 eexists.
  split; [vm_compute; reflexivity|].
  split; [reflexivity|].
  split; [reflexivity|].
  split; [reflexivity|].
  split; [vm_compute; reflexivity|].
  repeat split; try reflexivity; discriminate.
Qed.

(** C1 (amended). When the backend call of a turn fails, the turn answers
    500 (BackendError) and the history of the session is as it was before
    the turn; systemPrompt and temperature are as before where the request
    carries no override, and hold the override where it carries one;
    createdAt is kept, lastActivity is the time of the turn, and no other
    session is touched. *)
Theorem chat_backend_failure_keeps_history
    (backend : Backend) (b : ChatBody) (now replied : Z) (σ σ' : Sessions)
    (r : Response) (cfg : ModelConfig) (ms : list Message) (e : jsstring) :
  chat backend b now replied σ = (σ', r, [(cfg, ms)]) ->
  backend cfg ms = BackendFailure e ->
  BackendError r
  /\ exists sid s s',
       body_sessionId b = JStr sid /\ σ !! sid = Some s /\ σ' !! sid = Some s'
       /\ messageHistory s' = messageHistory s
       /\ (body_systemPrompt b = JUndefined -> systemPrompt s' = systemPrompt s)
       /\ (body_temperature b = JUndefined -> temperature s' = temperature s)
       /\ (forall x, body_systemPrompt b = JStr x ->
             systemPrompt s' = str_or (trim x) default_system_prompt)
       /\ (forall t, body_temperature b = JNum t -> temperature s' = t)
       /\ createdAt s' = createdAt s
       /\ lastActivity s' = now
       /\ forall k, k <> sid -> σ' !! k = σ !! k.
Proof.
  intros Hchat Hfail.
  pose proof (chat_run backend b now replied σ) as H. rewrite Hchat in H.
  inversion H as [r0 Hr | sid m s e0 Hsid Hm Hs Hb | sid m s c Hsid Hm Hs Hb];
    subst; [|congruence].
  split; [reflexivity|].
  exists sid, s, (set_lastActivity now (overridden b s)).
  rewrite lookup_insert_eq. cbn [set_lastActivity messageHistory systemPrompt
    temperature createdAt lastActivity].
  rewrite overridden_messageHistory, overridden_systemPrompt,
    overridden_temperature.
  repeat split; try done.
  - by intros ->.
  - by intros ->.
  - by intros x ->.
  - by intros t ->.
  - apply overridden_dates.
  - intros k Hk. by rewrite lookup_insert_ne.
Qed.

Lemma chat_backend_failure_keeps_history_witness :
  exists σ' r,
    chat backend_down
      (mkChatBody (JStr (lit "s")) (JStr (lit "hello")) JUndefined JUndefined)
      5 6 one_session
    = (σ', r, [(model, turn_messages (new_session_object 0) (lit "hello"))])
    /\ BackendError r
    /\ exists sid s s',
         JStr (lit "s") = JStr sid /\ one_session !! sid = Some s
         /\ σ' !! sid = Some s'
         /\ messageHistory s' = messageHistory s.
Proof.
  do 2 eexists. split; [vm_compute; reflexivity|].
  edestruct (chat_backend_failure_keeps_history backend_down
           (mkChatBody (JStr (lit "s")) (JStr (lit "hello")) JUndefined JUndefined)
           5 6 one_session) as (Hr & sid & s & s' & H1 & H2 & H3 & H4 & _);
    [vm_compute; reflexivity | reflexivity |].
  split; [exact Hr|]. exists sid, s, s'. auto.
Defined.

(** ** Sequences of turns *)

Lemma exchanges_shape (turns : list TurnRequest) (rs : list Response) :
  Forall2 is_exchange turns rs ->
  length (concat (zip_with exchange turns rs)) = (2 * length turns)%nat
  /\ alternates (concat (zip_with exchange turns rs)) = true.
Proof.
  induction 1 as [|t r turns rs (m & c & E) _ [IHl IHa]]; [done|].
  cbn [zip_with concat]. rewrite E. cbn [app length alternates].
  split; [lia|done].
Qed.

Lemma run_turns_history (sid : jsstring) (turns : list TurnRequest) :
  forall (σ σ' : Sessions) (s : Session) (rs : list Response),
    σ !! sid = Some s ->
    run_turns sid turns σ = (σ', rs) ->
    Forall (fun r => status r = 200) rs ->
    Forall2 is_exchange turns rs
    /\ exists s', σ' !! sid = Some s'
         /\ messageHistory s'
            = messageHistory s ++ concat (zip_with exchange turns rs).
Proof.
  induction turns as [|t turns IH]; intros σ σ' s rs Hs Hrun Hok.
  - injection Hrun as <- <-. split; [constructor|].
    exists s. by rewrite app_nil_r.
  - cbn [run_turns] in Hrun.
    pose proof (chat_run (turn_backend t)
      (mkChatBody (JStr sid) (turn_message t) (turn_temperature t)
         (turn_systemPrompt t)) (turn_now t) (turn_replied t) σ) as H.
    destruct (chat _ _ _ _ σ) as [[σ1 r] calls].
    destruct (run_turns sid turns σ1) as [σ2 rs'] eqn:Erest.
    injection Hrun as <- <-.
    apply Forall_cons in Hok as [Hr Hok].
    inversion H as [r0 Hr0 | sid0 m s0 e Hsid Hm Hs0 Hb
                   | sid0 m s0 c Hsid Hm Hs0 Hb]; subst.
    + exfalso. destruct Hr0 as [?|[?|?]]; congruence.
    + discriminate Hr.
    + cbn [body_sessionId body_message] in Hsid, Hm.
      injection Hsid as <-. rewrite Hs in Hs0. injection Hs0 as <-.
      edestruct (IH _ _ _ _ (lookup_insert_eq σ sid _) Erest Hok)
        as (HF & s' & Hs' & Hh).
      assert (E : exchange t (json (ChatReply sid c (turn_replied t)))
                  = [HumanMessage m; AIMessage c])
        by (unfold exchange; by rewrite Hm).
      split.
      * constructor; [by exists m, c|done].
      * exists s'. split; [done|].
        rewrite Hh. cbn [set_messageHistory messageHistory zip_with concat].
        rewrite E, overridden_messageHistory. by rewrite <- app_assoc.
Qed.

(** C2. On a session whose history is empty, any sequence of N chat
    requests that are all answered (status 200) leaves a history of exactly
    2*N messages made of human/ai pairs, human first: the pairs are, in
    order, the user message of each request and the reply sent for it. *)
Theorem successful_turns_history
    (sid : jsstring) (s : Session) (σ σ' : Sessions)
    (turns : list TurnRequest) (rs : list Response) :
  σ !! sid = Some s ->
  messageHistory s = [] ->
  run_turns sid turns σ = (σ', rs) ->
  Forall (fun r => status r = 200) rs ->
  exists s',
    σ' !! sid = Some s'
    /\ length (messageHistory s') = (2 * length turns)%nat
    /\ alternates (messageHistory s') = true
    /\ messageHistory s' = concat (zip_with exchange turns rs).
Proof.
  intros Hs Hempty Hrun Hok.
  destruct (run_turns_history sid turns σ σ' s rs Hs Hrun Hok)
    as (HF & s' & Hs' & Hh).
  rewrite Hempty in Hh. cbn [app] in Hh.
  exists s'. rewrite Hh.
  destruct (exchanges_shape turns rs HF) as [Hl Ha]. done.
Qed.

Lemma successful_turns_history_witness :
  exists s',
    (run_turns (lit "s") two_turns one_session).1 !! lit "s" = Some s'
    /\ length (messageHistory s') = 4%nat
    /\ alternates (messageHistory s') = true
    /\ messageHistory s'
       = [HumanMessage (lit "hello"); AIMessage (lit "hi");
          HumanMessage (lit "again"); AIMessage (lit "hi")].
Proof.
  apply (successful_turns_history (lit "s") (new_session_object 0)
           one_session _ two_turns
           [json (ChatReply (lit "s") (lit "hi") 6);
            json (ChatReply (lit "s") (lit "hi") 8)]).
  - reflexivity.
  - reflexivity.
  - vm_compute. reflexivity.
  - repeat constructor.
Defined.

(** ** Validation of the temperature *)

Lemma temperature_refused_iff (v : value) :
  temperature_refused v = true <-> v <> JUndefined /\ ~ valid_temperature v.
Proof.
  unfold temperature_refused, valid_temperature, Qlt_bool.
  destruct v as [| |b|t|x|]; cbn [defined andb]; split;
    try (intros _; split; [discriminate | by intros (t' & [=] & _)]);
    try done; try (by intros [[] _]).
  - rewrite orb_true_iff, !negb_true_iff, <- !not_true_iff_false,
      !Qle_bool_iff.
    intros H. split; [discriminate|]. intros (t' & [= <-] & H0 & H2). tauto.
  - intros [_ H]. rewrite orb_true_iff, !negb_true_iff.
    destruct (Qle_bool 0 t) eqn:E0; [|by left].
    destruct (Qle_bool t 2) eqn:E2; [|by right].
    exfalso. apply H. exists t. by rewrite <- !Qle_bool_iff.
Qed.

Lemma chat_refuses_temperature (backend : Backend) (b : ChatBody)
    (now replied : Z) (σ : Sessions) :
  temperature_refused (body_temperature b) = true ->
  exists r, chat backend b now replied σ = (σ, r, []) /\ status r = 400.
Proof.
  intros H. unfold chat, chat_prepare, bind, return_if. rewrite H.
  destruct (systemPrompt_refused (body_systemPrompt b)); eexists; by split.
Qed.

(** C3. On an existing session, a configuration update or a chat request
    that supplies a temperature which is not a number in [0, 2] is answered
    400 (InvalidArgument) and the temperature stored for the session is the
    one it had; the chat request changes nothing at all and calls no
    backend. *)
Theorem invalid_temperature_rejected
    (σ : Sessions) (sid : jsstring) (s : Session) (t : value) :
  σ !! sid = Some s ->
  t <> JUndefined ->
  ~ valid_temperature t ->
  (forall (sp : value) (σ' : Sessions) (r : Response),
      run (update_config sid sp t) σ = (σ', r) ->
      InvalidArgument r
      /\ exists s', σ' !! sid = Some s' /\ temperature s' = temperature s)
  /\ (forall (backend : Backend) (b : ChatBody) (now replied : Z),
        body_temperature b = t ->
        exists r, chat backend b now replied σ = (σ, r, [])
                  /\ InvalidArgument r).
Proof.
  intros Hs Hdef Hbad.
  assert (Href : temperature_refused t = true)
    by by apply temperature_refused_iff.
  split.
  - intros sp σ' r. unfold run, update_config, bind, session_or. rewrite Hs.
    unfold temperature_refused, return_if in *.
    destruct sp as [| |?|?|x|]; cbn [send pure assign];
      try (intros [= <- <-]; split; [reflexivity | by exists s]).
    + destruct t as [| |?|q|?|]; try done; cbn [defined andb] in Href;
        try rewrite Href; cbn [send];
        intros [= <- <-]; split; try reflexivity; by exists s.
    + destruct t as [| |?|q|?|]; try done; cbn [defined andb] in Href;
        try rewrite Href; cbn [send];
        intros [= <- <-]; (split; [reflexivity|]);
        exists (set_systemPrompt x s); by rewrite lookup_alter_eq, Hs.
  - intros backend b now replied Ht. subst t.
    by apply chat_refuses_temperature.
Qed.

Lemma invalid_temperature_rejected_witness :
  one_session !! lit "s" = Some (new_session_object 0)
  /\ InvalidArgument
       (run (update_config (lit "s") JUndefined (JNum (-1))) one_session).2
  /\ exists s',
       (run (update_config (lit "s") JUndefined (JNum (-1))) one_session).1
         !! lit "s" = Some s'
       /\ temperature s' = temperature (new_session_object 0).
Proof.
  split; [reflexivity|].
  assert (Hbad : ~ valid_temperature (JNum (-1))).
  { intros (t & [= <-] & H0 & _). by apply H0. }
  apply (proj1 (invalid_temperature_rejected one_session (lit "s")
                  (new_session_object 0) (JNum (-1))
                  eq_refl ltac:(discriminate) Hbad)
           JUndefined).
  apply surjective_pairing.
Defined.

(** The three temperatures the specification names are all refused. *)
Example refused_temperatures :
  temperature_refused (JNum (-1)) = true
  /\ temperature_refused (JNum (25 # 10)) = true
  /\ temperature_refused (JStr (lit "hot")) = true
  /\ temperature_refused (JNum 0) = false
  /\ temperature_refused (JNum 2) = false.
Proof. by vm_compute. Qed.

(** ** The system prompt *)

Example trim_examples :
  trim (lit "  Be brief ") = lit "Be brief"
  /\ trim [9; 10; 160; 8232; 65279]%N = []
  /\ trim (lit "a b") = lit "a b"
  /\ str_or (trim (lit "   ")) default_system_prompt = default_system_prompt.
Proof. by vm_compute. Qed.

Lemma default_system_prompt_nonempty : default_system_prompt <> [].
Proof. discriminate. Qed.

(** The code units of the literal of lines 74, 113 and 158: U+00EA in
    the first word, U+00E9 as the second word, U+00FA in the fifth. *)
Example default_system_prompt_units :
  default_system_prompt
  = [86; 111; 99; 234; 32; 233; 32; 117; 109; 32; 97; 115; 115; 105; 115;
     116; 101; 110; 116; 101; 32; 250; 116; 105; 108; 32; 101; 32; 112; 114;
     101; 115; 116; 97; 116; 105; 118; 111; 46]%N
  /\ length default_system_prompt = 39%nat.
Proof. by vm_compute. Qed.

Lemma str_or_default_nonempty (x : jsstring) :
  str_or x default_system_prompt <> [].
Proof. destruct x; discriminate. Qed.

(** The chat handler never stores an empty systemPrompt: a blank override is
    replaced by the built-in default. *)
Lemma chat_systemPrompt_nonempty (backend : Backend) (b : ChatBody)
    (now replied : Z) (σ σ' : Sessions) (r : Response)
    (calls : list BackendCall) :
  (forall k s, σ !! k = Some s -> systemPrompt s <> []) ->
  chat backend b now replied σ = (σ', r, calls) ->
  forall k s, σ' !! k = Some s -> systemPrompt s <> [].
Proof.
  intros Hinv Hchat.
  pose proof (chat_run backend b now replied σ) as H. rewrite Hchat in H.
  assert (Ho : forall s, systemPrompt s <> [] ->
                 systemPrompt (overridden b s) <> []).
  { intros s Hs. rewrite overridden_systemPrompt.
    destruct (body_systemPrompt b); try done. apply str_or_default_nonempty. }
  inversion H as [r0 Hr | sid m s e Hsid Hm Hs Hb | sid m s c Hsid Hm Hs Hb];
    subst; [done| |]; intros k s1; (destruct (decide (sid = k)) as [->|Hne];
    [ rewrite lookup_insert_eq; intros [= <-]; cbn; eauto
    | rewrite lookup_insert_ne by done; eauto ]).
Qed.

(** The new-session handler stores the built-in default. *)
Lemma session_new_systemPrompt_nonempty (sid : jsstring) (now : Z)
    (σ : Sessions) :
  (forall k s, σ !! k = Some s -> systemPrompt s <> []) ->
  forall k s, (session_new sid now σ).1 !! k = Some s -> systemPrompt s <> [].
Proof.
  intros Hinv k s. cbn [session_new fst].
  destruct (decide (sid = k)) as [->|Hne].
  - rewrite lookup_insert_eq. by intros [= <-].
  - rewrite lookup_insert_ne by done. eauto.
Qed.

(** C4. The configuration update stores the systemPrompt it is given as it
    is: on the session ["s"], whose systemPrompt is the default, an update
    with the empty string is answered 200 and leaves the session with an
    empty systemPrompt, where the chat handler would have stored the
    default. *)
Theorem update_config_stores_empty_systemPrompt :
  exists σ' s',
    run (update_config (lit "s") (JStr []) JUndefined) one_session
    = (σ', json (ConfigReply "Configurações atualizadas com sucesso"
                   (lit "s") [] (1 # 2)))
    /\ one_session !! lit "s" = Some (new_session_object 0)
    /\ σ' !! lit "s" = Some s'
    /\ systemPrompt s' = []
    /\ str_or (trim []) default_system_prompt = default_system_prompt.
Proof.
  exists (run (update_config (lit "s") (JStr []) JUndefined) one_session).1.
  eexists. split; [vm_compute; reflexivity|].
  split; [reflexivity|]. split; [vm_compute; reflexivity|]. by split.
Qed.

(** C5. The configuration update assigns the systemPrompt before it looks
    at the temperature: on the session ["s"], an update carrying a valid
    systemPrompt and the temperature 3 is answered 400 and the session holds
    the new systemPrompt afterwards. The chat handler, given the same two
    fields, answers 400 and leaves the store as it was. *)
Theorem update_config_mutates_before_validating :
  exists σ' r s',
    run (update_config (lit "s") (JStr (lit "Be brief")) (JNum 3)) one_session
    = (σ', r)
    /\ InvalidArgument r
    /\ one_session !! lit "s" = Some (new_session_object 0)
    /\ σ' !! lit "s" = Some s'
    /\ systemPrompt s' = lit "Be brief"
    /\ systemPrompt s' <> systemPrompt (new_session_object 0)
    /\ exists r',
         chat backend_hi
           (mkChatBody (JStr (lit "s")) (JStr (lit "hello")) (JNum 3)
              (JStr (lit "Be brief"))) 5 6 one_session
         = (one_session, r', [])
         /\ InvalidArgument r'.
Proof.
  exists (run (update_config (lit "s") (JStr (lit "Be brief")) (JNum 3))
            one_session).1.
  do 2 eexists. split; [vm_compute; reflexivity|].
  split; [reflexivity|]. split; [reflexivity|].
  split; [vm_compute; reflexivity|].
  split; [reflexivity|]. split; [discriminate|].
  by apply chat_refuses_temperature.
Qed.

(** ** Clearing and reading the history *)

(** C7, as stated, fails: clearing the session ["s"], last active at time
    5, at any later time (60000, say) empties its history and leaves its
    lastActivity at 5. *)
Lemma session_clear_keeps_lastActivity :
  let now := 60000 in
  exists s s',
    talked !! lit "s" = Some s
    /\ lastActivity s = 5
    /\ status (run (session_clear (lit "s")) talked).2 = 200
    /\ (run (session_clear (lit "s")) talked).1 !! lit "s" = Some s'
    /\ messageHistory s' = []
    /\ lastActivity s' = 5
    /\ lastActivity s' <> now.
Proof.
  intros now. do 2 eexists.
  split; [reflexivity|]. split; [reflexivity|]. split; [reflexivity|].
  split; [vm_compute; reflexivity|]. by repeat split.
Qed.

(** C7 (amended). On an existing session the clear handler answers 200 and
    replaces the history by the empty one; systemPrompt, temperature,
    createdAt and lastActivity keep their values and no other session is
    touched. The history handler then reports messageCount 0, no messages
    and the systemPrompt and temperature the session had before. *)
Theorem session_clear_resets_history_only
    (σ : Sessions) (sid : jsstring) (s : Session) :
  σ !! sid = Some s ->
  let σ' := <[sid := mkSession [] (systemPrompt s) (temperature s)
                       (createdAt s) (lastActivity s)]> σ in
  run (session_clear sid) σ
  = (σ', json (Done "Histórico limpo com sucesso" sid))
  /\ run (session_history sid) σ'
     = (σ', json (HistoryReply sid 0 [] (systemPrompt s) (temperature s)
                    (createdAt s) (lastActivity s))).
Proof.
  intros Hs σ'. split.
  - unfold run, session_clear, bind, session_or, assign, pure. rewrite Hs.
    by rewrite (alter_insert_lookup _ _ _ _ Hs).
  - unfold run, session_history, bind, session_or, pure, σ'.
    by rewrite lookup_insert_eq.
Qed.

Lemma session_clear_resets_history_only_witness :
  talked !! lit "s"
  = Some (mkSession [HumanMessage (lit "hello"); AIMessage (lit "hi")]
            default_system_prompt (1 # 2) 0 5)
  /\ run (session_history (lit "s"))
       (<[lit "s" := mkSession [] default_system_prompt (1 # 2) 0 5]> talked)
     = (<[lit "s" := mkSession [] default_system_prompt (1 # 2) 0 5]> talked,
        json (HistoryReply (lit "s") 0 [] default_system_prompt (1 # 2) 0 5)).
Proof.
  split; [reflexivity|].
  apply (session_clear_resets_history_only talked (lit "s")
           (mkSession [HumanMessage (lit "hello"); AIMessage (lit "hi")]
              default_system_prompt (1 # 2) 0 5)).
  reflexivity.
Defined.

(** C9, as stated, fails: reading the history of the session ["s"], last
    active at time 5, at any later time (60000, say) reports lastActivity 5
    and leaves it at 5 in the store. *)
Lemma session_history_keeps_lastActivity :
  let now := 60000 in
  exists s',
    run (session_history (lit "s")) talked
    = (talked,
       json (HistoryReply (lit "s") 2
               [mkHistoryEntry human (lit "hello"); mkHistoryEntry ai (lit "hi")]
               default_system_prompt (1 # 2) 0 5))
    /\ talked !! lit "s" = Some s'
    /\ lastActivity s' = 5
    /\ lastActivity s' <> now.
Proof.
  intros now. eexists. split; [reflexivity|]. split; [reflexivity|]. by split.
Qed.

(** C9 (amended). The history handler only reads: it leaves the store,
    and with it the lastActivity of the session, exactly as it was and
    reports the stored lastActivity. So does the existence probe. The
    lastActivity of an existing session is set to the current time by
    [getMessageHistory], that is by a chat turn that reaches the backend
    call. *)
Theorem session_history_reads_only
    (σ : Sessions) (sid : jsstring) (s : Session) :
  σ !! sid = Some s ->
  run (session_history sid) σ
  = (σ, json (HistoryReply sid (length (messageHistory s))
                (map (fun msg => mkHistoryEntry (_getType msg) (content msg))
                   (messageHistory s))
                (systemPrompt s) (temperature s) (createdAt s)
                (lastActivity s)))
  /\ (session_exists sid σ).1 = σ
  /\ forall now,
       getMessageHistory sid now σ
       = (<[sid := set_lastActivity now s]> σ, messageHistory s).
Proof.
  intros Hs. repeat split.
  - unfold run, session_history, bind, session_or, pure. by rewrite Hs.
  - unfold session_exists. by rewrite Hs.
  - intros now. unfold getMessageHistory. by rewrite Hs.
Qed.

Lemma session_history_reads_only_witness :
  talked !! lit "s"
  = Some (mkSession [HumanMessage (lit "hello"); AIMessage (lit "hi")]
            default_system_prompt (1 # 2) 0 5)
  /\ (run (session_history (lit "s")) talked).1 = talked.
Proof.
  split; [reflexivity|].
  exact (f_equal fst
           (proj1 (session_history_reads_only talked (lit "s")
                     (mkSession
                        [HumanMessage (lit "hello"); AIMessage (lit "hi")]
                        default_system_prompt (1 # 2) 0 5)
                     eq_refl))).
Defined.

(** ** A session that is missing when the history is fetched *)

Lemma chat_invoke_missing_session (backend : Backend) (p : Prepared)
    (now replied : Z) (σ : Sessions) :
  σ !! p_sessionId p = None ->
  exists σ' r calls s',
    chat_invoke backend p now replied σ = (σ', r, calls)
    /\ (status r = 200 \/ status r = 500)
    /\ σ' !! p_sessionId p = Some s'
    /\ systemPrompt s' = default_system_prompt
    /\ temperature s' = (1 # 2)%Q
    /\ createdAt s' = now
    /\ lastActivity s' = now
    /\ (messageHistory s' = []
        \/ exists c, messageHistory s' = [HumanMessage (p_message p); AIMessage c]).
Proof.
  intros Hnone. unfold chat_invoke, invoke, getMessageHistory.
  rewrite Hnone, formatMessages_prompt.
  destruct (backend _ _) as [c|e]; do 4 eexists; (split; [reflexivity|]).
  - unfold addMessages. rewrite lookup_alter_eq, lookup_insert_eq.
    cbn. repeat split; eauto.
  - rewrite lookup_insert_eq. cbn. repeat split; eauto.
Qed.

(** C10. For a session id that is not in the store, [getMessageHistory]
    does not fail: it inserts a session with an empty history, the default
    systemPrompt, temperature 0.5 and createdAt = lastActivity = now, and
    returns its empty history. Hence, when the session a chat request has
    found at its existence check is deleted before the history is fetched,
    the request is not answered 404: it is answered 200 or 500 and the id
    is in the store again, with the default systemPrompt and temperature
    and both dates at the time of the call. *)
Theorem getMessageHistory_creates_missing_session
    (sid : jsstring) (now : Z) (σ : Sessions) :
  σ !! sid = None ->
  getMessageHistory sid now σ
  = (<[sid := mkSession [] default_system_prompt (1 # 2) now now]> σ, [])
  /\ forall (backend : Backend) (b : ChatBody) (σ0 σ1 : Sessions)
       (p : Prepared) (rd : Response) (replied : Z),
       chat_prepare b σ0 = (σ1, inr p) ->
       p_sessionId p = sid ->
       run (session_delete sid) σ1 = (σ, rd) ->
       is_Some (σ0 !! sid) /\ is_Some (σ1 !! sid) /\ status rd = 200
       /\ exists σ' r calls s',
            chat_invoke backend p now replied σ = (σ', r, calls)
            /\ ~ NotFound r
            /\ σ' !! sid = Some s'
            /\ systemPrompt s' = default_system_prompt
            /\ temperature s' = (1 # 2)%Q
            /\ createdAt s' = now
            /\ lastActivity s' = now.
Proof.
  intros Hnone. split.
  - unfold getMessageHistory. by rewrite Hnone.
  - intros backend b σ0 σ1 p rd replied Hprep Hp Hdel.
    apply chat_prepare_proceeds in Hprep
      as (sid' & m & s & Hsid & Hm & Hs & _ & _ & -> & ->).
    cbn [p_sessionId] in Hp. subst sid'.
    unfold run, session_delete, bind, session_or in Hdel.
    rewrite lookup_insert_eq in Hdel. injection Hdel as <- <-.
    rewrite lookup_insert_eq, Hs. repeat split; eauto.
    edestruct (chat_invoke_missing_session backend
                 (mkPrepared sid m (systemPrompt (overridden b s))
                    (chain_model (overridden b s))) now replied
                 (delete sid (<[sid := overridden b s]> σ0)))
      as (σ' & r & calls & s' & Hrun & Hst & Hl & Hsp & Ht & Hc & Ha & _).
    { apply lookup_delete_eq. }
    exists σ', r, calls, s'. split; [exact Hrun|]. split; [|done].
    unfold NotFound. destruct Hst as [-> | ->]; discriminate.
Qed.

Lemma getMessageHistory_creates_missing_session_witness :
  (∅ : Sessions) !! lit "s" = None
  /\ getMessageHistory (lit "s") 9 ∅
     = (<[lit "s" := mkSession [] default_system_prompt (1 # 2) 9 9]> ∅, []).
Proof.
  split; [reflexivity|].
  apply (getMessageHistory_creates_missing_session (lit "s") 9 ∅).
  reflexivity.
Defined.

(** * Further properties of the handlers *)

(** ** Requests on a session that is not in the store *)

Lemma chat_prepare_well_formed (b : ChatBody) (sid m : jsstring)
    (σ : Sessions) :
  well_formed b sid m ->
  chat_prepare b σ
  = match σ !! sid with
    | None =>
        (σ, inl (status_json 404
                   (Error "Sessão não encontrada ou expirada" None)))
    | Some s =>
        (<[sid := overridden b s]> σ,
         inr (mkPrepared sid m (systemPrompt (overridden b s))
                (chain_model (overridden b s))))
    end.
Proof.
  intros (Hsid & Hne & Hm & Htrim & Hsp & Ht).
  destruct (chat_prepare b σ) as [σ1 [r|p]] eqn:E.
  - pose proof E as E'. apply chat_prepare_responds in E' as [-> _].
    assert (Hf : falsy (JStr sid) = false) by by destruct sid.
    assert (Hfm : falsy (JStr m) = false) by by destruct m.
    revert E. unfold chat_prepare, bind, return_if, check_message.
    rewrite Hsp, Ht, Hsid, Hm, Hf, Hfm. cbn [pure send].
    destruct (trim m) eqn:Et; [done|]. cbn [pure].
    unfold body_session_or, bind, session_or.
    destruct (σ !! sid) as [s|] eqn:Es; [|by intros [= <-]].
    cbn [pure]. unfold assign, deref, pure.
    destruct (body_systemPrompt b) as [| |?|?|x|]; try discriminate;
      destruct (body_temperature b) as [| |?|t|?|]; discriminate.
  - apply chat_prepare_proceeds in E
      as (sid' & m' & s & Hsid' & Hm' & Hs & _ & _ & -> & ->).
    rewrite Hsid in Hsid'. injection Hsid' as <-.
    rewrite Hm in Hm'. injection Hm' as <-. by rewrite Hs.
Qed.

(** A well-formed chat request for an id that is not in the store is
    answered 404; it calls no backend and leaves the store as it was, so the
    id is still absent afterwards. *)
Theorem chat_unknown_session_not_found
    (backend : Backend) (b : ChatBody) (sid m : jsstring) (now replied : Z)
    (σ : Sessions) :
  well_formed b sid m ->
  σ !! sid = None ->
  chat backend b now replied σ
  = (σ, status_json 404 (Error "Sessão não encontrada ou expirada" None), []).
Proof.
  intros Hwf Hnone. unfold chat.
  by rewrite (chat_prepare_well_formed b sid m σ Hwf), Hnone.
Qed.

Lemma chat_unknown_session_not_found_witness :
  chat backend_hi
    (mkChatBody (JStr (lit "zz")) (JStr (lit "hello")) JUndefined JUndefined)
    5 6 one_session
  = (one_session,
     status_json 404 (Error "Sessão não encontrada ou expirada" None), []).
Proof.
  apply (chat_unknown_session_not_found backend_hi _ (lit "zz") (lit "hello")).
  - repeat split; (reflexivity || discriminate).
  - reflexivity.
Defined.

Lemma missing_session_routes (σ : Sessions) (sid : jsstring) :
  σ !! sid = None ->
  session_exists sid σ = (σ, json (ExistsFalse sid))
  /\ run (session_history sid) σ
     = (σ, status_json 404 (Error "Sessão não encontrada" None))
  /\ run (session_clear sid) σ
     = (σ, status_json 404 (Error "Sessão não encontrada" None))
  /\ run (session_delete sid) σ
     = (σ, status_json 404 (Error "Sessão não encontrada" None))
  /\ forall sp t,
       run (update_config sid sp t) σ
       = (σ, status_json 404 (Error "Sessão não encontrada" None)).
Proof.
  intros H. unfold session_exists, run, session_history, session_clear,
    session_delete, update_config, bind, session_or. by rewrite H.
Qed.

(** Once a session has been deleted, the delete being answered 200, every
    route that names its id behaves as for an id that never existed: the
    probe says it does not exist, history, clear, config and a second delete
    are answered 404, and none of them changes the store. The other sessions
    are as they were before the delete. *)
Theorem deleted_session_is_gone (σ : Sessions) (sid : jsstring) (s : Session) :
  σ !! sid = Some s ->
  exists σ',
    run (session_delete sid) σ
    = (σ', json (Done "Sessão deletada com sucesso" sid))
    /\ σ' !! sid = None
    /\ (forall k, k <> sid -> σ' !! k = σ !! k)
    /\ session_exists sid σ' = (σ', json (ExistsFalse sid))
    /\ (exists r, run (session_history sid) σ' = (σ', r) /\ NotFound r)
    /\ (exists r, run (session_clear sid) σ' = (σ', r) /\ NotFound r)
    /\ (exists r, run (session_delete sid) σ' = (σ', r) /\ NotFound r)
    /\ (forall sp t,
          exists r, run (update_config sid sp t) σ' = (σ', r) /\ NotFound r).
Proof.
  intros Hs. exists (delete sid σ).
  assert (Hnone : delete sid σ !! sid = None) by apply lookup_delete_eq.
  destruct (missing_session_routes _ _ Hnone) as (He & Hh & Hc & Hd & Hu).
  split.
  { unfold run, session_delete, bind, session_or, pure. by rewrite Hs. }
  split; [done|]. split.
  { intros k Hk. by rewrite lookup_delete_ne. }
  split; [done|].
  repeat split; try (eexists; split; [eassumption|reflexivity]).
  intros sp t. eexists. split; [apply Hu|reflexivity].
Qed.

Lemma deleted_session_is_gone_witness :
  exists σ',
    run (session_delete (lit "s")) talked
    = (σ', json (Done "Sessão deletada com sucesso" (lit "s")))
    /\ σ' !! lit "s" = None
    /\ exists r, run (session_history (lit "s")) σ' = (σ', r) /\ NotFound r.
Proof.
  edestruct (deleted_session_is_gone talked (lit "s")) as
    (σ' & H1 & H2 & _ & _ & H3 & _); [reflexivity|].
  exists σ'. auto.
Defined.

(** ** Refused chat requests *)

(** A chat request that is answered 400 or 404, or that makes no backend
    call, has no effect: the store is the one before the request and the
    backend has not been called. *)
Theorem chat_refusal_has_no_effect
    (backend : Backend) (b : ChatBody) (now replied : Z) (σ σ' : Sessions)
    (r : Response) (calls : list BackendCall) :
  chat backend b now replied σ = (σ', r, calls) ->
  status r = 400 \/ status r = 404 \/ calls = [] ->
  σ' = σ /\ calls = [] /\ status r <> 200.
Proof.
  intros Hchat Hr.
  pose proof (chat_run backend b now replied σ) as H. rewrite Hchat in H.
  inversion H as [r0 Hr0 | sid m s e Hsid Hm Hs Hb | sid m s c Hsid Hm Hs Hb];
    subst.
  - repeat split; try done. destruct Hr0 as [-> | [-> | ->]]; discriminate.
  - exfalso. destruct Hr as [?|[?|?]]; discriminate.
  - exfalso. destruct Hr as [?|[?|?]]; discriminate.
Qed.

Lemma chat_refusal_has_no_effect_witness :
  (chat backend_hi
     (mkChatBody (JStr (lit "s")) (JStr (lit "   ")) (JNum 1)
        (JStr (lit "Be brief"))) 5 6 one_session).1.1
  = one_session.
Proof.
  eapply (chat_refusal_has_no_effect backend_hi
            (mkChatBody (JStr (lit "s")) (JStr (lit "   ")) (JNum 1)
               (JStr (lit "Be brief"))) 5 6 one_session _
            (status_json 400 (Error "message não pode estar vazio" None)) []).
  - vm_compute. reflexivity.
  - left. reflexivity.
Defined.

Lemma trimStart_blank (m : jsstring) :
  trimStart m = [] <-> forallb is_white m = true.
Proof.
  induction m as [|c m IH]; [done|]. cbn [trimStart forallb].
  destruct (is_white c); [exact IH|]. split; discriminate.
Qed.

Lemma trimStart_head (m : jsstring) :
  match trimStart m with
  | [] => True
  | c :: _ => is_white c = false
  end.
Proof.
  induction m as [|c m IH]; [done|]. cbn [trimStart].
  by destruct (is_white c) eqn:E; [|rewrite E].
Qed.

Lemma trim_blank (m : jsstring) :
  trim m = [] <-> forallb is_white m = true.
Proof.
  unfold trim, trimEnd. rewrite <- trimStart_blank. split.
  - intros H. apply (f_equal (@rev N)) in H. rewrite rev_involutive in H.
    cbn [rev] in H. apply trimStart_blank in H.
    pose proof (trimStart_head m) as Hh.
    destruct (trimStart m) as [|c t]; [done|]. exfalso.
    rewrite forallb_forall in H.
    assert (is_white c = true) by (apply H, in_rev; rewrite rev_involutive; by left).
    congruence.
  - by intros ->.
Qed.

(** A chat request whose message is a string of white space only (or the
    empty string) is answered 400 without any effect, whatever its other
    fields and whether or not the session exists. *)
Theorem chat_blank_message_rejected
    (backend : Backend) (b : ChatBody) (m : jsstring) (now replied : Z)
    (σ : Sessions) :
  body_message b = JStr m ->
  forallb is_white m = true ->
  exists r, chat backend b now replied σ = (σ, r, []) /\ InvalidArgument r.
Proof.
  intros Hm Hblank. apply trim_blank in Hblank.
  unfold chat, chat_prepare, bind, return_if, check_message.
  destruct (systemPrompt_refused _); [by eexists|].
  destruct (temperature_refused _); [by eexists|].
  destruct (falsy (body_sessionId b)); [by eexists|].
  cbn [pure]. rewrite Hm, Hblank.
  destruct (falsy (JStr m)); by eexists.
Qed.

Lemma chat_blank_message_rejected_witness :
  exists r,
    chat backend_hi
      (mkChatBody (JStr (lit "s")) (JStr [32; 9; 160; 10]%N) JUndefined
         JUndefined) 5 6 one_session
    = (one_session, r, [])
    /\ InvalidArgument r.
Proof.
  apply (chat_blank_message_rejected backend_hi _ [32; 9; 160; 10]%N);
    reflexivity.
Defined.

(** A chat request whose message is a string with at least one character
    that is not white space, and whose other fields pass the checks, is
    never answered 400: it reaches the lookup of the session. *)
Theorem chat_nonblank_message_accepted
    (backend : Backend) (b : ChatBody) (sid m : jsstring) (now replied : Z)
    (σ : Sessions) :
  body_sessionId b = JStr sid -> sid <> [] ->
  body_message b = JStr m ->
  forallb is_white m = false ->
  systemPrompt_refused (body_systemPrompt b) = false ->
  temperature_refused (body_temperature b) = false ->
  status (chat backend b now replied σ).1.2 <> 400
  /\ (σ !! sid = None -> status (chat backend b now replied σ).1.2 = 404)
  /\ (is_Some (σ !! sid) -> (chat backend b now replied σ).2 <> []).
Proof.
  intros Hsid Hne Hm Hnb Hsp Ht.
  assert (Hwf : well_formed b sid m).
  { repeat split; try done. rewrite trim_blank. congruence. }
  unfold chat. rewrite (chat_prepare_well_formed b sid m σ Hwf).
  destruct (σ !! sid) as [s|] eqn:Es.
  - unfold chat_invoke, invoke, getMessageHistory.
    cbn [p_model p_message p_system_prompt p_sessionId].
    rewrite lookup_insert_eq, formatMessages_prompt.
    destruct (backend _ _); cbn; repeat split; done.
  - cbn. repeat split; done.
Qed.

Lemma chat_nonblank_message_accepted_witness :
  status (chat backend_down
            (mkChatBody (JStr (lit "s")) (JStr (lit " hello ")) JUndefined
               JUndefined) 5 6 one_session).1.2 <> 400.
Proof.
  apply (chat_nonblank_message_accepted backend_down _ (lit "s")
           (lit " hello ")); (reflexivity || discriminate).
Defined.

(** ** What a chat request does to the store *)

(** A chat request handled without interruption never adds or removes a
    session id, whatever its outcome, and the sessions other than the one
    it names are as they were. *)
Theorem chat_keeps_session_ids
    (backend : Backend) (b : ChatBody) (now replied : Z) (σ σ' : Sessions)
    (r : Response) (calls : list BackendCall) :
  chat backend b now replied σ = (σ', r, calls) ->
  dom σ' = dom σ
  /\ forall k, body_sessionId b <> JStr k -> σ' !! k = σ !! k.
Proof.
  intros Hchat.
  pose proof (chat_run backend b now replied σ) as H. rewrite Hchat in H.
  inversion H as [r0 Hr0 | sid m s e Hsid Hm Hs Hb | sid m s c Hsid Hm Hs Hb];
    subst; [done| |]; (split;
    [ by apply dom_insert_lookup_L
    | intros k Hk; rewrite lookup_insert_ne; [done|congruence] ]).
Qed.

Lemma chat_keeps_session_ids_witness :
  dom (chat backend_hi
         (mkChatBody (JStr (lit "s")) (JStr (lit "hello")) JUndefined
            JUndefined) 5 6 one_session).1.1
  = dom one_session.
Proof.
  destruct (chat backend_hi
              (mkChatBody (JStr (lit "s")) (JStr (lit "hello")) JUndefined
                 JUndefined) 5 6 one_session) as [[σ' r] calls] eqn:E.
  exact (proj1 (chat_keeps_session_ids _ _ _ _ _ _ _ _ E)).
Defined.

(** What is known of a chat request that has called the backend. *)
Lemma chat_called (backend : Backend) (b : ChatBody) (now replied : Z)
    (σ σ' : Sessions) (r : Response) (calls : list BackendCall)
    (cfg : ModelConfig) (ms : list Message) :
  chat backend b now replied σ = (σ', r, calls) ->
  In (cfg, ms) calls ->
  exists sid m s h,
    body_sessionId b = JStr sid /\ body_message b = JStr m
    /\ σ !! sid = Some s
    /\ cfg = chain_model (overridden b s)
    /\ ms = turn_messages (overridden b s) m
    /\ σ' = <[sid := set_messageHistory h
                       (set_lastActivity now (overridden b s))]> σ.
Proof.
  intros Hchat Hin.
  pose proof (chat_run backend b now replied σ) as H. rewrite Hchat in H.
  inversion H as [r0 Hr0 | sid m s e Hsid Hm Hs Hb | sid m s c Hsid Hm Hs Hb];
    subst; [destruct Hin| |]; destruct Hin as [[= <- <-]|[]];
    exists sid, m, s; eexists; repeat split; done.
Qed.

Lemma chat_well_formed (backend : Backend) (b : ChatBody) (sid m : jsstring)
    (now replied : Z) (σ : Sessions) (s : Session) :
  well_formed b sid m ->
  σ !! sid = Some s ->
  chat backend b now replied σ
  = match backend (chain_model (overridden b s))
            (turn_messages (overridden b s) m) with
    | Completion c =>
        (<[sid := set_messageHistory
                    (messageHistory s ++ [HumanMessage m; AIMessage c])
                    (set_lastActivity now (overridden b s))]> σ,
         json (ChatReply sid c replied),
         [(chain_model (overridden b s), turn_messages (overridden b s) m)])
    | BackendFailure e =>
        (<[sid := set_lastActivity now (overridden b s)]> σ,
         status_json 500 (Error "Erro ao processar mensagem" (Some e)),
         [(chain_model (overridden b s), turn_messages (overridden b s) m)])
    end.
Proof.
  intros Hwf Hs. unfold chat.
  rewrite (chat_prepare_well_formed b sid m σ Hwf), Hs.
  unfold chat_invoke, invoke, getMessageHistory.
  cbn [p_model p_message p_system_prompt p_sessionId].
  rewrite lookup_insert_eq, formatMessages_prompt, insert_insert_eq.
  fold (turn_messages (overridden b s) m).
  destruct (backend _ _) as [c|e]; [|done].
  unfold addMessages.
  erewrite alter_insert_lookup by apply lookup_insert_eq.
  rewrite insert_insert_eq. cbn [messageHistory set_lastActivity].
  by rewrite overridden_messageHistory.
Qed.

(** ** The prompt sent to the backend *)

(** C8. The template [prompt], formatted with a system prompt [sp], a
    history [h] and a user message [m], is the system message [sp], then
    [h] as it is, then the human message [m], whatever the length of [h];
    formatting is a function of these three values alone. Every call a
    chat request makes to the backend carries exactly this list, built
    from the session's current systemPrompt (the override of the request
    when it has one), the history the session had before the turn and the
    message of the request. And the call is made: a chat request whose
    fields pass the checks, on a session that exists, calls the backend
    exactly once, with this list. *)
Theorem prompt_is_system_history_user :
  (forall (sp m : jsstring) (h : list Message),
      formatMessages prompt (mkChainInput m sp h)
      = Some ([SystemMessage sp] ++ h ++ [HumanMessage m]))
  /\ (forall (backend : Backend) (b : ChatBody) (now replied : Z)
        (σ σ' : Sessions) (r : Response) (calls : list BackendCall)
        (cfg : ModelConfig) (ms : list Message),
        chat backend b now replied σ = (σ', r, calls) ->
        In (cfg, ms) calls ->
        exists sid m s s',
          body_sessionId b = JStr sid /\ body_message b = JStr m
          /\ σ !! sid = Some s /\ σ' !! sid = Some s'
          /\ systemPrompt s' = systemPrompt (overridden b s)
          /\ ms = [SystemMessage (systemPrompt s')] ++ messageHistory s
                    ++ [HumanMessage m]
          /\ calls = [(cfg, ms)])
  /\ (forall (backend : Backend) (b : ChatBody) (sid m : jsstring)
        (now replied : Z) (σ : Sessions) (s : Session),
        well_formed b sid m ->
        σ !! sid = Some s ->
        exists σ' r s',
          chat backend b now replied σ
          = (σ', r,
             [(chain_model (overridden b s),
               [SystemMessage (systemPrompt s')] ++ messageHistory s
                 ++ [HumanMessage m])])
          /\ σ' !! sid = Some s'
          /\ systemPrompt s'
             = match body_systemPrompt b with
               | JStr x => str_or (trim x) default_system_prompt
               | _ => systemPrompt s
               end).
Proof.
  split; [intros; apply formatMessages_prompt|]. split.
  - intros backend b now replied σ σ' r calls cfg ms Hchat Hin.
    pose proof (chat_run backend b now replied σ) as H. rewrite Hchat in H.
    inversion H as [r0 Hr | sid m s e Hsid Hm Hs Hb
                   | sid m s c Hsid Hm Hs Hb];
      subst; [destruct Hin| |];
      (destruct Hin as [[= <- <-]|[]]);
      exists sid, m, s; eexists; rewrite lookup_insert_eq;
      (split; [done|]); (split; [done|]); (split; [done|]);
      (split; [reflexivity|]); (split; [reflexivity|]);
      unfold turn_messages; cbn [systemPrompt set_lastActivity
        set_messageHistory]; by rewrite overridden_messageHistory.
  - intros backend b sid m now replied σ s Hwf Hs.
    rewrite (chat_well_formed backend b sid m now replied σ s Hwf Hs).
    unfold turn_messages. rewrite overridden_messageHistory.
    destruct (backend _ _) as [c|e].
    + exists (<[sid := set_messageHistory
                        (messageHistory s ++ [HumanMessage m; AIMessage c])
                        (set_lastActivity now (overridden b s))]> σ),
             (json (ChatReply sid c replied)),
             (set_messageHistory
                (messageHistory s ++ [HumanMessage m; AIMessage c])
                (set_lastActivity now (overridden b s))).
      rewrite lookup_insert_eq. repeat split.
      apply overridden_systemPrompt.
    + exists (<[sid := set_lastActivity now (overridden b s)]> σ),
             (status_json 500 (Error "Erro ao processar mensagem" (Some e))),
             (set_lastActivity now (overridden b s)).
      rewrite lookup_insert_eq. repeat split.
      apply overridden_systemPrompt.
Qed.

Lemma prompt_is_system_history_user_witness :
  exists σ' r s',
    chat backend_hi
      (mkChatBody (JStr (lit "s")) (JStr (lit "again")) JUndefined
         (JStr (lit "Be brief"))) 7 8 talked
    = (σ', r,
       [(model,
         [SystemMessage (systemPrompt s')]
           ++ [HumanMessage (lit "hello"); AIMessage (lit "hi")]
           ++ [HumanMessage (lit "again")])])
    /\ σ' !! lit "s" = Some s'
    /\ systemPrompt s' = lit "Be brief".
Proof.
  apply (proj2 (proj2 prompt_is_system_history_user) backend_hi
           (mkChatBody (JStr (lit "s")) (JStr (lit "again")) JUndefined
              (JStr (lit "Be brief")))
           (lit "s") (lit "again") 7 8 talked
           (mkSession [HumanMessage (lit "hello"); AIMessage (lit "hi")]
              default_system_prompt (1 # 2) 0 5)).
  - repeat split; (reflexivity || discriminate).
  - reflexivity.
Defined.

(** ** A first turn on a new session *)

(** Creating a session, running one well-formed turn on it that the backend
    answers with [c], and reading the history gives: the reply [c], and a
    history of exactly two entries, the user message as sent (not trimmed)
    and [c], with the systemPrompt and temperature of the request's
    overrides (the defaults without overrides), the creation time and the
    time of the turn. The backend is sent the system message and the user
    message only. *)
Theorem first_turn_on_new_session
    (backend : Backend) (b : ChatBody) (sid m c : jsstring)
    (now0 now replied : Z) (σ : Sessions) :
  well_formed b sid m ->
  backend (chain_model (overridden b (new_session_object now0)))
    [SystemMessage (systemPrompt (overridden b (new_session_object now0)));
     HumanMessage m]
  = Completion c ->
  exists σ1,
    chat backend b now replied (session_new sid now0 σ).1
    = (σ1, json (ChatReply sid c replied),
       [(chain_model (overridden b (new_session_object now0)),
         [SystemMessage (systemPrompt (overridden b (new_session_object now0)));
          HumanMessage m])])
    /\ run (session_history sid) σ1
       = (σ1,
          json (HistoryReply sid 2
                  [mkHistoryEntry human m; mkHistoryEntry ai c]
                  (systemPrompt (overridden b (new_session_object now0)))
                  (temperature (overridden b (new_session_object now0)))
                  now0 now)).
Proof.
  intros Hwf Hb. cbn [session_new fst].
  rewrite (chat_well_formed backend b sid m now replied _
             (new_session_object now0) Hwf (lookup_insert_eq _ _ _)).
  unfold turn_messages. rewrite overridden_messageHistory.
  cbn [new_session_object messageHistory app]. cbn [new_session_object] in Hb.
  rewrite Hb. eexists. split; [reflexivity|].
  unfold run, session_history, bind, session_or, pure.
  rewrite lookup_insert_eq.
  cbn [messageHistory set_messageHistory systemPrompt temperature createdAt
       lastActivity set_lastActivity map length _getType content].
  by destruct (overridden_dates b (new_session_object now0)) as [-> _].
Qed.

Lemma first_turn_on_new_session_witness :
  exists σ1,
    chat backend_hi
      (mkChatBody (JStr (lit "n")) (JStr (lit "hello")) JUndefined JUndefined)
      5 6 (session_new (lit "n") 0 ∅).1
    = (σ1, json (ChatReply (lit "n") (lit "hi") 6),
       [(model, [SystemMessage default_system_prompt;
                 HumanMessage (lit "hello")])])
    /\ run (session_history (lit "n")) σ1
       = (σ1,
          json (HistoryReply (lit "n") 2
                  [mkHistoryEntry human (lit "hello");
                   mkHistoryEntry ai (lit "hi")]
                  default_system_prompt (1 # 2) 0 5)).
Proof.
  apply (first_turn_on_new_session backend_hi
           (mkChatBody (JStr (lit "n")) (JStr (lit "hello")) JUndefined
              JUndefined) (lit "n") (lit "hello") (lit "hi") 0 5 6 ∅).
  - repeat split; (reflexivity || discriminate).
  - reflexivity.
Defined.

(** ** The model a turn is run with *)

Lemma chain_model_temperature (s : Session) :
  (model_temperature (chain_model s) == temperature s)%Q
  /\ modelName (chain_model s) = "gpt-4.1-nano"%string
  /\ (maxTokens (chain_model s) = Some 2000 <-> (temperature s == 1 # 2)%Q)
  /\ (maxTokens (chain_model s) = None <-> ~ (temperature s == 1 # 2)%Q).
Proof.
  unfold chain_model.
  destruct (Qeq_bool (temperature s) (1 # 2)) eqn:E; cbn.
  - apply Qeq_bool_iff in E. repeat split; done.
  - assert (~ (temperature s == 1 # 2)%Q)
      by (rewrite <- Qeq_bool_iff; congruence).
    repeat split; done.
Qed.

(** Every backend call of a chat request is made with the model
    gpt-4.1-nano at the temperature the session holds after the request's
    overrides. The limit of 2000 output tokens is part of the call exactly
    when that temperature is 0.5: at any other temperature the call is made
    without a token limit. *)
Theorem backend_called_at_session_temperature
    (backend : Backend) (b : ChatBody) (now replied : Z) (σ σ' : Sessions)
    (r : Response) (calls : list BackendCall)
    (cfg : ModelConfig) (ms : list Message) :
  chat backend b now replied σ = (σ', r, calls) ->
  In (cfg, ms) calls ->
  exists sid s',
    body_sessionId b = JStr sid /\ σ' !! sid = Some s'
    /\ (model_temperature cfg == temperature s')%Q
    /\ modelName cfg = "gpt-4.1-nano"%string
    /\ (maxTokens cfg = Some 2000 <-> (temperature s' == 1 # 2)%Q)
    /\ (maxTokens cfg = None <-> ~ (temperature s' == 1 # 2)%Q).
Proof.
  intros Hchat Hin.
  destruct (chat_called _ _ _ _ _ _ _ _ _ _ Hchat Hin)
    as (sid & m & s & h & Hsid & Hm & Hs & -> & -> & ->).
  exists sid. eexists. split; [done|]. rewrite lookup_insert_eq.
  split; [reflexivity|]. cbn [temperature set_messageHistory set_lastActivity].
  apply chain_model_temperature.
Qed.

Lemma backend_called_at_session_temperature_witness :
  exists sid s',
    JStr (lit "s") = JStr sid
    /\ (chat backend_hi
          (mkChatBody (JStr (lit "s")) (JStr (lit "hello")) (JNum 1)
             JUndefined) 5 6 one_session).1.1 !! sid = Some s'
    /\ (1 == temperature s')%Q
    /\ (None = Some 2000 <-> (temperature s' == 1 # 2)%Q).
Proof.
  destruct (chat backend_hi
              (mkChatBody (JStr (lit "s")) (JStr (lit "hello")) (JNum 1)
                 JUndefined) 5 6 one_session) as [[σ' r] calls] eqn:E.
  assert (Hin : In (mkModelConfig "gpt-4.1-nano" 1 None,
                    [SystemMessage default_system_prompt;
                     HumanMessage (lit "hello")]) calls).
  { vm_compute in E. injection E as _ _ <-. left. reflexivity. }
  destruct (backend_called_at_session_temperature _ _ _ _ _ _ _ _ _ _ E Hin)
    as (sid & s' & H1 & H2 & H3 & _ & H4 & _).
  exists sid, s'. auto.
Defined.

(** ** Overrides stay for later turns *)

(** The systemPrompt and temperature a chat request carries are kept by the
    session, also when the backend call of that request fails: the next
    request on the session that reaches the backend without a systemPrompt
    of its own sends, as system message, the trimmed systemPrompt of the
    earlier request (the default if that was blank), and without a
    temperature of its own runs at the earlier request's temperature. *)
Theorem overrides_persist_to_next_turn
    (backend1 backend2 : Backend) (b1 b2 : ChatBody)
    (now1 replied1 now2 replied2 : Z) (σ σ1 σ2 : Sessions)
    (r1 r2 : Response) (call1 : BackendCall)
    (cfg : ModelConfig) (ms : list Message) :
  chat backend1 b1 now1 replied1 σ = (σ1, r1, [call1]) ->
  chat backend2 b2 now2 replied2 σ1 = (σ2, r2, [(cfg, ms)]) ->
  body_sessionId b2 = body_sessionId b1 ->
  (forall x, body_systemPrompt b1 = JStr x ->
             body_systemPrompt b2 = JUndefined ->
             exists rest,
               ms = SystemMessage (str_or (trim x) default_system_prompt)
                      :: rest)
  /\ (forall t, body_temperature b1 = JNum t ->
                body_temperature b2 = JUndefined ->
                (model_temperature cfg == t)%Q).
Proof.
  intros H1 H2 Hsame.
  destruct call1 as [cfg1 ms1].
  destruct (chat_called _ _ _ _ _ _ _ _ _ _ H1 (or_introl eq_refl))
    as (sid & m1 & s & h1 & Hsid1 & _ & Hs & _ & _ & ->).
  destruct (chat_called _ _ _ _ _ _ _ _ _ _ H2 (or_introl eq_refl))
    as (sid2 & m2 & s2 & h2 & Hsid2 & _ & Hs2 & -> & -> & _).
  rewrite Hsame, Hsid1 in Hsid2. injection Hsid2 as <-.
  rewrite lookup_insert_eq in Hs2. injection Hs2 as <-.
  split.
  - intros x Hx Hu. eexists. unfold turn_messages. cbn [app].
    rewrite overridden_systemPrompt, Hu.
    cbn [systemPrompt set_messageHistory set_lastActivity].
    by rewrite overridden_systemPrompt, Hx.
  - intros t Ht Hu.
    destruct (chain_model_temperature
                (overridden b2 (set_messageHistory h1
                   (set_lastActivity now1 (overridden b1 s))))) as [-> _].
    rewrite overridden_temperature, Hu.
    cbn [temperature set_messageHistory set_lastActivity].
    by rewrite overridden_temperature, Ht.
Qed.

Lemma overrides_persist_to_next_turn_witness :
  exists rest,
    [SystemMessage (lit "Be brief"); HumanMessage (lit "again")]
    = SystemMessage (str_or (trim (lit " Be brief ")) default_system_prompt)
        :: rest.
Proof.
  refine (proj1 (overrides_persist_to_next_turn backend_down backend_hi
           (mkChatBody (JStr (lit "s")) (JStr (lit "hello")) JUndefined
              (JStr (lit " Be brief ")))
           (mkChatBody (JStr (lit "s")) (JStr (lit "again")) JUndefined
              JUndefined)
           5 6 7 8 one_session
           (chat backend_down
              (mkChatBody (JStr (lit "s")) (JStr (lit "hello")) JUndefined
                 (JStr (lit " Be brief "))) 5 6 one_session).1.1
           (chat backend_hi
              (mkChatBody (JStr (lit "s")) (JStr (lit "again")) JUndefined
                 JUndefined) 7 8
              (chat backend_down
                 (mkChatBody (JStr (lit "s")) (JStr (lit "hello")) JUndefined
                    (JStr (lit " Be brief "))) 5 6 one_session).1.1).1.1
           (status_json 500 (Error "Erro ao processar mensagem"
                               (Some (lit "connection refused"))))
           (json (ChatReply (lit "s") (lit "hi") 8))
           (model, [SystemMessage (lit "Be brief"); HumanMessage (lit "hello")])
           model
           [SystemMessage (lit "Be brief"); HumanMessage (lit "again")]
           _ _ _) (lit " Be brief ") eq_refl eq_refl).
  - vm_compute. reflexivity.
  - vm_compute. reflexivity.
  - reflexivity.
Defined.

(** ** Configuration updates *)

Lemma systemPrompt_accepted_iff (sp : value) :
  systemPrompt_accepted sp <-> systemPrompt_refused sp = false.
Proof.
  unfold systemPrompt_accepted.
  destruct sp; cbn; split; try done; try (intros [[=]|[? [=]]]); eauto.
Qed.

Lemma temperature_accepted_iff (t : value) :
  temperature_accepted t <-> temperature_refused t = false.
Proof.
  unfold temperature_accepted. split.
  - intros [->|Hv]; [done|].
    destruct (temperature_refused t) eqn:E; [|done].
    apply temperature_refused_iff in E as [_ E]. done.
  - intros E. destruct t as [| |?|q|?|]; try done; [by left|right].
    unfold temperature_refused, Qlt_bool in E. cbn [defined andb] in E.
    apply orb_false_iff in E as [E0 E2].
    apply negb_false_iff in E0, E2. exists q.
    by rewrite <- !Qle_bool_iff.
Qed.

Lemma update_config_run (σ : Sessions) (sid : jsstring) (s : Session)
    (sp t : value) :
  σ !! sid = Some s ->
  run (update_config sid sp t) σ
  = if systemPrompt_refused sp then
      (σ, status_json 400 (Error "systemPrompt deve ser uma string" None))
    else if temperature_refused t then
      (<[sid := configured sp JUndefined s]> σ,
       status_json 400
         (Error "temperature deve ser um número entre 0 e 2" None))
    else
      (<[sid := configured sp t s]> σ,
       json (ConfigReply "Configurações atualizadas com sucesso" sid
               (systemPrompt (configured sp t s))
               (temperature (configured sp t s)))).
Proof.
  intros Hs.
  assert (Hid : <[sid := s]> σ = σ) by by apply insert_id.
  unfold run, update_config, bind, session_or, return_if, assign, deref, pure,
    send, temperature_refused, configured.
  rewrite Hs.
  destruct sp as [| |?|?|x|]; cbn [systemPrompt_refused defined andb];
    try done;
    destruct t as [| |?|q|?|]; cbn [defined andb];
    try match goal with
        | |- context [Qlt_bool ?q 0 || Qlt_bool 2 ?q] =>
            destruct (Qlt_bool q 0 || Qlt_bool 2 q)
        end;
    rewrite ?(alter_insert_lookup _ _ _ _ Hs), ?Hid, ?Hs; try done.
  - by rewrite lookup_insert_eq.
  - by rewrite lookup_insert_eq.
  - erewrite alter_insert_lookup by apply lookup_insert_eq.
    by rewrite insert_insert_eq, lookup_insert_eq.
Qed.

(** On an existing session a configuration update is answered 200 exactly
    when each field is absent or acceptable (the systemPrompt a string, the
    temperature a number in [0, 2]). It then stores exactly the fields
    given, the systemPrompt as it is (not trimmed), keeps history,
    createdAt and lastActivity and the other sessions, and reports the two
    stored values; with no field at all it changes nothing. A systemPrompt
    that is not a string is answered 400 before anything is stored, even
    when the temperature given with it is acceptable. *)
Theorem update_config_accepts_iff
    (σ : Sessions) (sid : jsstring) (s : Session) (sp t : value) :
  σ !! sid = Some s ->
  (status (run (update_config sid sp t) σ).2 = 200
     <-> systemPrompt_accepted sp /\ temperature_accepted t)
  /\ (systemPrompt_accepted sp -> temperature_accepted t ->
        run (update_config sid sp t) σ
        = (<[sid := mkSession (messageHistory s)
                      (match sp with JStr x => x | _ => systemPrompt s end)
                      (match t with JNum q => q | _ => temperature s end)
                      (createdAt s) (lastActivity s)]> σ,
           json (ConfigReply "Configurações atualizadas com sucesso" sid
                   (match sp with JStr x => x | _ => systemPrompt s end)
                   (match t with JNum q => q | _ => temperature s end))))
  /\ (sp = JUndefined -> t = JUndefined ->
        (run (update_config sid sp t) σ).1 = σ)
  /\ (~ systemPrompt_accepted sp ->
        (run (update_config sid sp t) σ).1 = σ
        /\ InvalidArgument (run (update_config sid sp t) σ).2).
Proof.
  intros Hs. rewrite (update_config_run σ sid s sp t Hs).
  rewrite systemPrompt_accepted_iff, temperature_accepted_iff.
  destruct (systemPrompt_refused sp) eqn:Esp,
           (temperature_refused t) eqn:Et; cbn [fst snd status status_json json].
  all: repeat split; try done; try (by intros [? ?]); try (intros; exfalso; congruence).
  - intros -> ->. by apply insert_id.
  - intros _ _. unfold configured. by destruct sp, t, s.
  - intros -> ->. by apply insert_id.
Qed.

Lemma update_config_accepts_iff_witness :
  run (update_config (lit "s") (JStr (lit " Be brief ")) (JNum 2)) talked
  = (<[lit "s" :=
         mkSession [HumanMessage (lit "hello"); AIMessage (lit "hi")]
           (lit " Be brief ") 2 0 5]> talked,
     json (ConfigReply "Configurações atualizadas com sucesso" (lit "s")
             (lit " Be brief ") 2)).
Proof.
  apply (update_config_accepts_iff talked (lit "s")
           (mkSession [HumanMessage (lit "hello"); AIMessage (lit "hi")]
              default_system_prompt (1 # 2) 0 5)
           (JStr (lit " Be brief ")) (JNum 2) eq_refl).
  - right. by eexists.
  - right. exists 2%Q. repeat split; discriminate.
Defined.

(** A configuration update is idempotent: sending the same update a second
    time gives the same response and the same store as sending it once,
    whether it is accepted, refused or names no session. *)
Theorem update_config_idempotent
    (σ : Sessions) (sid : jsstring) (sp t : value) :
  run (update_config sid sp t) (run (update_config sid sp t) σ).1
  = run (update_config sid sp t) σ.
Proof.
  destruct (σ !! sid) as [s|] eqn:Hs.
  - rewrite (update_config_run σ sid s sp t Hs).
    destruct (systemPrompt_refused sp) eqn:Esp; cbn [fst].
    { by rewrite (update_config_run σ sid s sp t Hs), Esp. }
    destruct (temperature_refused t) eqn:Et; cbn [fst].
    + rewrite (update_config_run _ sid _ sp t (lookup_insert_eq _ _ _)).
      rewrite Esp, Et, insert_insert_eq. do 2 f_equal.
      unfold configured. by destruct sp.
    + rewrite (update_config_run _ sid _ sp t (lookup_insert_eq _ _ _)).
      rewrite Esp, Et, insert_insert_eq.
      assert (E : configured sp t (configured sp t s) = configured sp t s)
        by (unfold configured; by destruct sp, t).
      by rewrite E.
  - destruct (missing_session_routes σ sid Hs) as (_ & _ & _ & _ & H).
    by rewrite !H.
Qed.

(** ** More on the expiry sweep *)

Lemma expired_false_iff (now : Z) (session : Session) :
  expired now session = false <-> now - lastActivity session <= 30 * 60 * 1000.
Proof.
  pose proof (expired_iff now session) as E.
  destruct (expired now session).
  - pose proof (proj1 E eq_refl). split; [done|lia].
  - split; [|done]. intros _.
    destruct (Z_le_gt_dec (now - lastActivity session) (30 * 60 * 1000))
      as [Hle|Hgt]; [done|].
    by apply E in Hgt.
Qed.

(** One pass of the sweep keeps exactly the sessions whose lastActivity is
    at most 30 minutes before [now], each as it is: the loop that deletes
    while it iterates computes the filter of the map, so it adds nothing,
    changes no session it keeps and misses none that is due. *)
Theorem reaper_is_filter (now : Z) (sessions : Sessions) :
  reaper now sessions
  = filter (fun entry => now - lastActivity entry.2 <= 30 * 60 * 1000)
      sessions
  /\ reaper now sessions ⊆ sessions.
Proof.
  assert (E : reaper now sessions
              = filter (fun entry : jsstring * Session =>
                          now - lastActivity entry.2 <= 30 * 60 * 1000)
                  sessions).
  { apply map_eq. intros k. rewrite reaper_lookup, map_lookup_filter.
    destruct (sessions !! k) as [s|]; [|done]. cbn.
    destruct (expired now s) eqn:Ex.
    - apply expired_iff in Ex. rewrite option_guard_False; [done|]. cbn. lia.
    - apply expired_false_iff in Ex. by rewrite option_guard_True. }
  split; [exact E|]. rewrite E. apply map_filter_subseteq.
Qed.

(** Sweeps compose: a sweep followed by a later sweep leaves the same store
    as the later sweep alone. In particular a second sweep at the same time
    removes nothing more. *)
Theorem reaper_later_sweep_absorbs (now now' : Z) (sessions : Sessions) :
  now <= now' ->
  reaper now' (reaper now sessions) = reaper now' sessions.
Proof.
  intros Hle. apply map_eq. intros k. rewrite !reaper_lookup.
  destruct (sessions !! k) as [s|]; [|done].
  destruct (expired now s) eqn:E; [|done].
  apply expired_iff in E.
  destruct (expired now' s) eqn:E'; [done|].
  apply expired_false_iff in E'. lia.
Qed.

Lemma reaper_later_sweep_absorbs_witness :
  reaper 1800006 (reaper 1800001 talked) = reaper 1800006 talked.
Proof. apply reaper_later_sweep_absorbs. lia. Defined.

(** A session is due for removal a fixed 30 minutes after it was created
    or last used in a turn that reached the backend (answered or failed),
    however old it was before: a sweep at time [now'] keeps it if and only
    if [now'] is at most 30 minutes after that time. *)
Theorem turn_and_creation_restart_the_expiry_clock (now' : Z) :
  (forall (uuid : jsstring) (now : Z) (σ : Sessions),
      is_Some (reaper now' (session_new uuid now σ).1 !! uuid)
      <-> now' - now <= 30 * 60 * 1000)
  /\ (forall (backend : Backend) (b : ChatBody) (sid : jsstring)
        (now replied : Z) (σ σ' : Sessions) (r : Response)
        (call : BackendCall),
        chat backend b now replied σ = (σ', r, [call]) ->
        body_sessionId b = JStr sid ->
        (is_Some (reaper now' σ' !! sid) <-> now' - now <= 30 * 60 * 1000)
        /\ (now' - now <= 30 * 60 * 1000 ->
              reaper now' σ' !! sid = σ' !! sid)).
Proof.
  split.
  - intros uuid now σ. cbn [session_new fst].
    rewrite reaper_lookup, lookup_insert_eq.
    destruct (expired now' (new_session_object now)) eqn:E.
    + apply expired_iff in E. cbn in E. split; [by intros [? [=]]|lia].
    + apply expired_false_iff in E. cbn in E. split; [done|by eexists].
  - intros backend b sid now replied σ σ' r [cfg ms] Hchat Hsid.
    destruct (chat_called _ _ _ _ _ _ _ _ _ _ Hchat (or_introl eq_refl))
      as (sid' & m & s & h & Hsid' & _ & Hs & _ & _ & ->).
    rewrite Hsid in Hsid'. injection Hsid' as <-.
    rewrite reaper_lookup, lookup_insert_eq.
    destruct (expired now' _) eqn:E.
    + apply expired_iff in E. cbn in E.
      split; [split; [by intros [? [=]]|lia]|lia].
    + apply expired_false_iff in E. cbn in E.
      split; [split; [done|by eexists]|done].
Qed.

Lemma turn_and_creation_restart_the_expiry_clock_witness :
  is_Some (reaper 1800007
             (chat backend_down
                (mkChatBody (JStr (lit "s")) (JStr (lit "hello")) JUndefined
                   JUndefined) 7 8 talked).1.1 !! lit "s").
Proof.
  destruct (chat backend_down
              (mkChatBody (JStr (lit "s")) (JStr (lit "hello")) JUndefined
                 JUndefined) 7 8 talked) as [[σ' r] calls] eqn:E.
  assert (Hc : exists call, calls = [call])
    by (vm_compute in E; injection E as _ _ <-; by eexists).
  destruct Hc as [call ->]. cbn [fst].
  apply (proj2 (turn_and_creation_restart_the_expiry_clock 1800007)
           _ _ (lit "s") _ _ _ _ _ _ E eq_refl).
  lia.
Defined.

(** Reading the history, probing, clearing the history or updating the
    configuration does not count as activity: a session whose lastActivity
    is more than 30 minutes before [now] is removed by a sweep at [now]
    also when one of these requests on it has just been answered. *)
Theorem only_turns_postpone_expiry
    (now : Z) (σ : Sessions) (sid : jsstring) (s : Session) (sp t : value) :
  σ !! sid = Some s ->
  now - lastActivity s > 30 * 60 * 1000 ->
  reaper now (session_exists sid σ).1 !! sid = None
  /\ reaper now (run (session_history sid) σ).1 !! sid = None
  /\ reaper now (run (session_clear sid) σ).1 !! sid = None
  /\ reaper now (run (update_config sid sp t) σ).1 !! sid = None.
Proof.
  intros Hs Hold.
  assert (Hexp : forall s', lastActivity s' = lastActivity s ->
                   expired now s' = true).
  { intros s' E. apply expired_iff. by rewrite E. }
  rewrite !reaper_lookup. repeat split.
  - unfold session_exists. rewrite Hs. cbn. by rewrite Hs, Hexp.
  - unfold run, session_history, bind, session_or, pure. rewrite Hs. cbn.
    by rewrite Hs, Hexp.
  - unfold run, session_clear, bind, session_or, assign, pure. rewrite Hs.
    cbn. rewrite lookup_alter_eq, Hs. cbn. by rewrite Hexp.
  - rewrite (update_config_run σ sid s sp t Hs).
    destruct (systemPrompt_refused sp); [cbn; by rewrite Hs, Hexp|].
    destruct (temperature_refused t); cbn; rewrite lookup_insert_eq;
      rewrite Hexp; try done; unfold configured; by destruct sp, t.
Qed.

Lemma only_turns_postpone_expiry_witness :
  reaper 1800006 (run (session_history (lit "s")) talked).1 !! lit "s" = None
  /\ reaper 1800006 (run (session_clear (lit "s")) talked).1 !! lit "s" = None.
Proof.
  destruct (only_turns_postpone_expiry 1800006 talked (lit "s")
              (mkSession [HumanMessage (lit "hello"); AIMessage (lit "hi")]
                 default_system_prompt (1 # 2) 0 5) JUndefined JUndefined)
    as (_ & H1 & H2 & _); [reflexivity | cbn; lia | by split].
Defined.

(** ** Creating and deleting *)

(** Creating a session under a fresh id raises the number of active
    sessions by one and leaves the others as they are, and deleting it
    again gives back the store as it was. Under an id that is already in
    use (a collision of [uuidv4()]) the number stays the same and the
    session that was there is replaced by a new, empty one. *)
Theorem session_new_then_delete
    (uuid : jsstring) (now : Z) (σ : Sessions) :
  (σ !! uuid = None ->
     activeSessions (session_new uuid now σ).1 = S (activeSessions σ)
     /\ run (session_delete uuid) (session_new uuid now σ).1
        = (σ, json (Done "Sessão deletada com sucesso" uuid)))
  /\ (is_Some (σ !! uuid) ->
        activeSessions (session_new uuid now σ).1 = activeSessions σ)
  /\ (session_new uuid now σ).1 !! uuid = Some (new_session_object now)
  /\ (forall k, k <> uuid -> (session_new uuid now σ).1 !! k = σ !! k).
Proof.
  cbn [session_new fst]. unfold activeSessions. repeat split.
  - by apply map_size_insert_None.
  - unfold run, session_delete, bind, session_or, pure.
    rewrite lookup_insert_eq. by rewrite delete_insert_id.
  - intros Hs. by apply map_size_insert_Some.
  - apply lookup_insert_eq.
  - intros k Hk. by rewrite lookup_insert_ne.
Qed.

Lemma session_new_then_delete_witness :
  activeSessions (session_new (lit "n") 9 talked).1 = 2%nat
  /\ run (session_delete (lit "n")) (session_new (lit "n") 9 talked).1
     = (talked, json (Done "Sessão deletada com sucesso" (lit "n"))).
Proof.
  apply (proj1 (session_new_then_delete (lit "n") 9 talked)). reflexivity.
Defined.

(** ** Invariants of the store *)

Lemma alternates_app (p h : list Message) :
  alternates h = true -> alternates (h ++ p) = alternates p.
Proof.
  assert (H : forall n (h : list Message),
             (length h <= n)%nat -> alternates h = true ->
             alternates (h ++ p) = alternates p).
  { clear h. induction n as [|n IH]; intros h Hlen Ha.
    - destruct h; [done|cbn in Hlen; lia].
    - destruct h as [|[x|x|x] [|[y|y|y] h]]; try done.
      cbn [alternates app] in *. apply IH; [cbn in Hlen; lia|done]. }
  by apply (H (length h)).
Qed.

Lemma alternates_even (h : list Message) :
  alternates h = true -> Nat.Even (length h).
Proof.
  assert (H : forall n (h : list Message),
             (length h <= n)%nat -> alternates h = true ->
             Nat.Even (length h)).
  { clear h. induction n as [|n IH]; intros h Hlen Ha.
    - destruct h; [by exists 0%nat|cbn in Hlen; lia].
    - destruct h as [|[x|x|x] [|[y|y|y] h]]; try done; [by exists 0%nat|].
      cbn [alternates length] in *.
      destruct (IH h ltac:(lia) Ha) as [k Hk]. exists (S k). lia. }
  by apply (H (length h)).
Qed.

Lemma chat_reached_temperature (backend : Backend) (b : ChatBody)
    (now replied : Z) (σ σ' : Sessions) (r : Response)
    (calls : list BackendCall) :
  chat backend b now replied σ = (σ', r, calls) ->
  calls <> [] ->
  temperature_accepted (body_temperature b).
Proof.
  intros Hchat Hcalls. apply temperature_accepted_iff.
  destruct (temperature_refused (body_temperature b)) eqn:E; [|done].
  destruct (chat_refuses_temperature backend b now replied σ E)
    as (r' & Hr' & _).
  rewrite Hchat in Hr'. by injection Hr' as _ _ ->.
Qed.

Lemma handle_temperatures_in_range (req : Request) (now : Z) (σ : Sessions) :
  temperatures_in_range σ -> temperatures_in_range (handle req now σ).
Proof.
  intros Hinv.
  assert (Hins : forall (σ0 : Sessions) sid s,
             temperatures_in_range σ0 ->
             (0 <= temperature s)%Q /\ (temperature s <= 2)%Q ->
             temperatures_in_range (<[sid := s]> σ0)).
  { intros σ0 sid s H0 Hs k s'. destruct (decide (sid = k)) as [->|Hne].
    - rewrite lookup_insert_eq. by intros [= <-].
    - rewrite lookup_insert_ne by done. apply H0. }
  destruct req as [sid|uuid|backend b replied|sid|sid|sid sp t|sid|];
    cbn [handle].
  - unfold session_exists. destruct (σ !! sid); exact Hinv.
  - cbn [session_new fst]. apply Hins; [done|]. cbn. split; discriminate.
  - destruct (chat backend b now replied σ) as [[σ' r] calls] eqn:Hchat.
    cbn [fst].
    pose proof (chat_run backend b now replied σ) as H. rewrite Hchat in H.
    inversion H as [r0 Hr0 | sid m s e Hsid Hm Hs Hb
                   | sid m s c Hsid Hm Hs Hb]; subst; [exact Hinv| |];
      (apply Hins; [done|]);
      cbn [temperature set_messageHistory set_lastActivity];
      rewrite overridden_temperature;
      (destruct (chat_reached_temperature _ _ _ _ _ _ _ _ Hchat
                   ltac:(discriminate)) as [->|(q & -> & Hq)];
       [by apply (Hinv sid)|done]).
  - unfold run, session_history, bind, session_or, pure.
    destruct (σ !! sid); exact Hinv.
  - unfold run, session_clear, bind, session_or, assign, pure.
    destruct (σ !! sid) as [s|] eqn:Hs; [|exact Hinv]. cbn [fst].
    rewrite (alter_insert_lookup _ _ _ _ Hs). apply Hins; [done|].
    cbn [temperature set_messageHistory]. by apply (Hinv sid).
  - destruct (σ !! sid) as [s|] eqn:Hs.
    + rewrite (update_config_run σ sid s sp t Hs).
      destruct (systemPrompt_refused sp); [exact Hinv|].
      destruct (temperature_refused t) eqn:Et; cbn [fst];
        (apply Hins; [done|]).
      * unfold configured.
        destruct sp; cbn [temperature set_systemPrompt]; by apply (Hinv sid).
      * apply temperature_accepted_iff in Et as [->|(q & -> & Hq)].
        -- unfold configured.
           destruct sp; cbn [temperature set_systemPrompt];
             by apply (Hinv sid).
        -- unfold configured. by destruct sp.
    + destruct (missing_session_routes σ sid Hs) as (_ & _ & _ & _ & H).
      rewrite H. exact Hinv.
  - unfold run, session_delete, bind, session_or, pure.
    destruct (σ !! sid) as [s|] eqn:Hs; [|exact Hinv]. cbn [fst].
    intros k s'. destruct (decide (sid = k)) as [->|Hne].
    + by rewrite lookup_delete_eq.
    + rewrite lookup_delete_ne by done. apply Hinv.
  - intros k s'. rewrite reaper_lookup.
    destruct (σ !! k) as [s|] eqn:Hs; [|done].
    destruct (expired now s); [done|]. intros [= <-]. by apply (Hinv k).
Qed.

(** Whatever requests the server has handled since it started, in whatever
    order and with whatever bodies and backend answers, every stored
    temperature is a number in [0, 2]. *)
Theorem served_temperatures_in_range (reqs : list (Request * Z)) :
  temperatures_in_range (serve reqs).
Proof.
  unfold serve.
  assert (H : forall σ : Sessions, temperatures_in_range σ ->
             temperatures_in_range
               (fold_left (fun σ '(req, now) => handle req now σ) reqs σ)).
  { induction reqs as [|[req now] reqs IH]; intros σ Hσ; [done|].
    cbn [fold_left]. by apply IH, handle_temperatures_in_range. }
  apply H. intros k s. by rewrite lookup_empty.
Qed.

Lemma handle_histories_alternate (req : Request) (now : Z) (σ : Sessions) :
  histories_alternate σ -> histories_alternate (handle req now σ).
Proof.
  intros Hinv.
  assert (Hins : forall (σ0 : Sessions) sid s,
             histories_alternate σ0 ->
             alternates (messageHistory s) = true ->
             histories_alternate (<[sid := s]> σ0)).
  { intros σ0 sid s H0 Hs k s'. destruct (decide (sid = k)) as [->|Hne].
    - rewrite lookup_insert_eq. by intros [= <-].
    - rewrite lookup_insert_ne by done. apply H0. }
  destruct req as [sid|uuid|backend b replied|sid|sid|sid sp t|sid|];
    cbn [handle].
  - unfold session_exists. destruct (σ !! sid); exact Hinv.
  - cbn [session_new fst]. by apply Hins.
  - destruct (chat backend b now replied σ) as [[σ' r] calls] eqn:Hchat.
    cbn [fst].
    pose proof (chat_run backend b now replied σ) as H. rewrite Hchat in H.
    inversion H as [r0 Hr0 | sid m s e Hsid Hm Hs Hb
                   | sid m s c Hsid Hm Hs Hb]; subst; [exact Hinv| |];
      (apply Hins; [done|]);
      cbn [messageHistory set_messageHistory set_lastActivity].
    + rewrite overridden_messageHistory. by apply (Hinv sid).
    + rewrite alternates_app; [done|].
      rewrite overridden_messageHistory. by apply (Hinv sid).
  - unfold run, session_history, bind, session_or, pure.
    destruct (σ !! sid); exact Hinv.
  - unfold run, session_clear, bind, session_or, assign, pure.
    destruct (σ !! sid) as [s|] eqn:Hs; [|exact Hinv]. cbn [fst].
    rewrite (alter_insert_lookup _ _ _ _ Hs). by apply Hins.
  - destruct (σ !! sid) as [s|] eqn:Hs.
    + rewrite (update_config_run σ sid s sp t Hs).
      destruct (systemPrompt_refused sp); [exact Hinv|].
      destruct (temperature_refused t); cbn [fst];
        (apply Hins; [done|]); unfold configured;
        destruct sp, t;
        cbn [messageHistory set_systemPrompt set_temperature];
        by apply (Hinv sid).
    + destruct (missing_session_routes σ sid Hs) as (_ & _ & _ & _ & H).
      rewrite H. exact Hinv.
  - unfold run, session_delete, bind, session_or, pure.
    destruct (σ !! sid) as [s|] eqn:Hs; [|exact Hinv]. cbn [fst].
    intros k s'. destruct (decide (sid = k)) as [->|Hne].
    + by rewrite lookup_delete_eq.
    + rewrite lookup_delete_ne by done. apply Hinv.
  - intros k s'. rewrite reaper_lookup.
    destruct (σ !! k) as [s|] eqn:Hs; [|done].
    destruct (expired now s); [done|]. intros [= <-]. by apply (Hinv k).
Qed.

(** Whatever requests the server has handled since it started, each from
    its first line to its response without another in between, every
    stored history is a sequence of human/ai pairs, human first, and so
    has even length: no request leaves a user message without its reply or
    a reply without its user message. *)
Theorem served_histories_alternate (reqs : list (Request * Z)) :
  forall k s,
    serve reqs !! k = Some s ->
    alternates (messageHistory s) = true
    /\ Nat.Even (length (messageHistory s)).
Proof.
  assert (H : forall σ : Sessions, histories_alternate σ ->
             histories_alternate
               (fold_left (fun σ '(req, now) => handle req now σ) reqs σ)).
  { induction reqs as [|[req now] reqs IH]; intros σ Hσ; [done|].
    cbn [fold_left]. by apply IH, handle_histories_alternate. }
  intros k s Hs.
  assert (Ha : alternates (messageHistory s) = true).
  { eapply (H ∅); [|exact Hs]. intros k' s'. by rewrite lookup_empty. }
  split; [exact Ha|by apply alternates_even].
Qed.

Lemma served_histories_alternate_witness :
  alternates [HumanMessage (lit "hello"); AIMessage (lit "hi")] = true
  /\ Nat.Even 2.
Proof.
  apply (served_histories_alternate
           [(PostNew (lit "s"), 0);
            (PostChat backend_hi
               (mkChatBody (JStr (lit "s")) (JStr (lit "hello")) JUndefined
                  JUndefined) 6, 5);
            (Sweep, 300000)]
           (lit "s")
           (mkSession [HumanMessage (lit "hello"); AIMessage (lit "hi")]
              default_system_prompt (1 # 2) 0 5)).
  vm_compute. reflexivity.
Defined.

Lemma handle_dates (req : Request) (now : Z) (σ : Sessions) :
  (forall k s, σ !! k = Some s -> createdAt s <= lastActivity s <= now) ->
  forall k s, handle req now σ !! k = Some s ->
              createdAt s <= lastActivity s <= now.
Proof.
  intros Hinv.
  assert (Hins : forall sid s,
             createdAt s <= lastActivity s <= now ->
             forall k s', <[sid := s]> σ !! k = Some s' ->
                          createdAt s' <= lastActivity s' <= now).
  { intros sid s Hs k s'. destruct (decide (sid = k)) as [->|Hne].
    - rewrite lookup_insert_eq. by intros [= <-].
    - rewrite lookup_insert_ne by done. apply Hinv. }
  destruct req as [sid|uuid|backend b replied|sid|sid|sid sp t|sid|];
    cbn [handle].
  - unfold session_exists. destruct (σ !! sid); exact Hinv.
  - cbn [session_new fst]. apply Hins. cbn. lia.
  - destruct (chat backend b now replied σ) as [[σ' r] calls] eqn:Hchat.
    cbn [fst].
    pose proof (chat_run backend b now replied σ) as H. rewrite Hchat in H.
    inversion H as [r0 Hr0 | sid m s e Hsid Hm Hs Hb
                   | sid m s c Hsid Hm Hs Hb]; subst; [exact Hinv| |];
      apply Hins;
      cbn [createdAt lastActivity set_messageHistory set_lastActivity];
      destruct (overridden_dates b s) as [-> _];
      pose proof (Hinv sid s Hs); lia.
  - unfold run, session_history, bind, session_or, pure.
    destruct (σ !! sid); exact Hinv.
  - unfold run, session_clear, bind, session_or, assign, pure.
    destruct (σ !! sid) as [s|] eqn:Hs; [|exact Hinv]. cbn [fst].
    rewrite (alter_insert_lookup _ _ _ _ Hs). apply Hins.
    cbn [createdAt lastActivity set_messageHistory]. by apply (Hinv sid).
  - destruct (σ !! sid) as [s|] eqn:Hs.
    + rewrite (update_config_run σ sid s sp t Hs).
      destruct (systemPrompt_refused sp); [exact Hinv|].
      destruct (temperature_refused t); cbn [fst];
        apply Hins; unfold configured;
        destruct sp, t;
        cbn [createdAt lastActivity set_systemPrompt set_temperature];
        by apply (Hinv sid).
    + destruct (missing_session_routes σ sid Hs) as (_ & _ & _ & _ & H).
      rewrite H. exact Hinv.
  - unfold run, session_delete, bind, session_or, pure.
    destruct (σ !! sid) as [s|] eqn:Hs; [|exact Hinv]. cbn [fst].
    intros k s'. destruct (decide (sid = k)) as [->|Hne].
    + by rewrite lookup_delete_eq.
    + rewrite lookup_delete_ne by done. apply Hinv.
  - intros k s'. rewrite reaper_lookup.
    destruct (σ !! k) as [s|] eqn:Hs; [|done].
    destruct (expired now s); [done|]. intros [= <-]. by apply (Hinv k).
Qed.

(** When the clock does not go back from one request to the next, every
    stored session has a lastActivity that is not before its createdAt and
    not after the time of the last request handled. *)
Theorem served_dates_ordered (reqs : list (Request * Z)) :
  StronglySorted Z.le (map snd reqs) ->
  forall k s,
    serve reqs !! k = Some s ->
    createdAt s <= lastActivity s
    /\ Forall (fun t => lastActivity s <= t) (option_list (last (map snd reqs))).
Proof.
  unfold serve.
  assert (H : forall (σ : Sessions) (t0 : Z),
             StronglySorted Z.le (t0 :: map snd reqs) ->
             (forall k s, σ !! k = Some s ->
                          createdAt s <= lastActivity s <= t0) ->
             forall k s,
               fold_left (fun σ '(req, now) => handle req now σ) reqs σ !! k
               = Some s ->
               createdAt s <= lastActivity s
               <= default t0 (last (map snd reqs))).
  { induction reqs as [|[req now] reqs IH]; intros σ t0 Hsort Hσ k s Hs.
    - by apply (Hσ k).
    - cbn [fold_left map snd] in *.
      apply StronglySorted_inv in Hsort as [Hsort Hall].
      apply Forall_cons in Hall as [Hle _].
      rewrite last_cons.
      assert (E : default t0
                    match last (map snd reqs) with
                    | Some y => Some y
                    | None => Some now
                    end
                  = default now (last (map snd reqs)))
        by by destruct (last (map snd reqs)).
      rewrite E. eapply (IH _ now Hsort); [|exact Hs].
      apply handle_dates. intros k' s' Hs'.
      pose proof (Hσ k' s' Hs'). lia. }
  intros Hsort k s Hs.
  destruct reqs as [|[req now] reqs].
  - cbn in Hs. by rewrite lookup_empty in Hs.
  - assert (Hsort' : StronglySorted Z.le (now :: map snd ((req, now) :: reqs))).
    { cbn [map snd] in *. constructor; [done|]. constructor; [lia|].
      by apply StronglySorted_inv in Hsort as [_ ?]. }
    pose proof (H ∅ now Hsort' ltac:(intros ? ?; by rewrite lookup_empty)
                  k s Hs) as Hd.
    split; [lia|].
    destruct (last (map snd ((req, now) :: reqs))) as [t|] eqn:El;
      simpl in Hd |- *; [|done].
    constructor; [lia|done].
Qed.

Lemma served_dates_ordered_witness :
  0 <= 5 /\ Forall (fun t => 5 <= t) [300000].
Proof.
  refine (served_dates_ordered
           [(PostNew (lit "s"), 0);
            (PostChat backend_hi
               (mkChatBody (JStr (lit "s")) (JStr (lit "hello")) JUndefined
                  JUndefined) 6, 5);
            (Sweep, 300000)]
           _
           (lit "s")
           (mkSession [HumanMessage (lit "hello"); AIMessage (lit "hi")]
              default_system_prompt (1 # 2) 0 5) _).
  - cbn [map snd].
    repeat first [ apply SSorted_nil | apply SSorted_cons
                 | apply List.Forall_nil | apply List.Forall_cons | lia ].
  - vm_compute. reflexivity.
Defined.

(** ** The address printed at start-up *)

Lemma localIP_entries (entries : list NetworkInterface) (acc : jsstring) :
  fold_left
    (fun localIP iface =>
       if external_ipv4 iface then address iface else localIP)
    entries acc
  = default acc (last (map address (List.filter external_ipv4 entries))).
Proof.
  revert acc. induction entries as [|iface entries IH]; intros acc; [done|].
  cbn [fold_left List.filter]. rewrite IH.
  destruct (external_ipv4 iface); [|done].
  cbn [map]. rewrite last_cons.
  by destruct (last (map address (List.filter external_ipv4 entries))).
Qed.

(** The address printed as the network address at start-up is the address
    of the last interface entry, in the order the interfaces are listed,
    that is IPv4 and not internal; when there is none, it is
    ["localhost"]. *)
Theorem localIP_is_last_external_ipv4
    (ifaces : list (jsstring * list NetworkInterface)) :
  localIP ifaces
  = default (lit "localhost")
      (last (map address
               (List.filter external_ipv4 (concat (map snd ifaces)))))
  /\ (localIP ifaces = lit "localhost"
      \/ exists ifname entries iface,
           In (ifname, entries) ifaces /\ In iface entries
           /\ family iface = lit "IPv4" /\ internal iface = false
           /\ localIP ifaces = address iface).
Proof.
  assert (E : forall acc,
             fold_left
               (fun localIP '(ifname, entries) =>
                  fold_left
                    (fun localIP iface =>
                       if external_ipv4 iface then address iface
                       else localIP)
                    entries localIP)
               ifaces acc
             = default acc
                 (last (map address
                          (List.filter external_ipv4
                             (concat (map snd ifaces)))))).
  { induction ifaces as [|[ifname entries] ifaces IH]; intros acc; [done|].
    cbn [fold_left map snd concat]. rewrite IH, localIP_entries.
    rewrite List.filter_app, List.map_app, last_app.
    by destruct (last (map address
                         (List.filter external_ipv4
                            (concat (map snd ifaces))))). }
  unfold localIP. rewrite E. split; [done|].
  destruct (last _) as [a|] eqn:El; [right|by left]. cbn [default].
  apply last_Some_elem_of, list_elem_of_In, in_map_iff in El
    as (iface & <- & Hin).
  apply filter_In in Hin as [Hin Hext].
  apply in_concat in Hin as (entries & Hent & Hin).
  apply in_map_iff in Hent as ([ifname entries'] & Heq & Hent).
  cbn in Heq. subst entries'.
  unfold external_ipv4 in Hext. apply andb_true_iff in Hext as [Hf Hi].
  apply bool_decide_eq_true in Hf. apply negb_true_iff in Hi.
  by exists ifname, entries, iface.
Qed.

Example localIP_examples :
  localIP [] = lit "localhost"
  /\ localIP [(lit "lo", [mkNetworkInterface (lit "IPv4") true (lit "127.0.0.1")])]
     = lit "localhost"
  /\ localIP [(lit "lo", [mkNetworkInterface (lit "IPv4") true (lit "127.0.0.1")]);
              (lit "eth0", [mkNetworkInterface (lit "IPv6") false (lit "fe80::1");
                            mkNetworkInterface (lit "IPv4") false (lit "10.0.0.2")]);
              (lit "wlan0", [mkNetworkInterface (lit "IPv4") false (lit "10.0.0.7")])]
     = lit "10.0.0.7".
Proof. by vm_compute. Qed.

(** ** A message that is not a string *)

(** A chat request whose message is a truthy value other than a string (a
    non-zero number, [true], an array or an object) and whose other fields
    pass the checks is answered 500, not 400, whether or not the session
    exists: [message.trim] is not a function and the [catch] block answers.
    Nothing is stored and the backend is not called. *)
Theorem chat_non_string_message_is_500
    (backend : Backend) (b : ChatBody) (now replied : Z) (σ : Sessions) :
  systemPrompt_refused (body_systemPrompt b) = false ->
  temperature_refused (body_temperature b) = false ->
  falsy (body_sessionId b) = false ->
  falsy (body_message b) = false ->
  (forall m, body_message b <> JStr m) ->
  chat backend b now replied σ
  = (σ,
     status_json 500
       (Error "Erro ao processar mensagem"
          (Some (lit "message.trim is not a function"))),
     []).
Proof.
  intros Hsp Ht Hsid Hm Hns.
  unfold chat, chat_prepare, bind, return_if, check_message.
  rewrite Hsp, Ht, Hsid, Hm. cbn [pure].
  destruct (body_message b) as [| |?|?|m|]; try done. by destruct (Hns m).
Qed.

Lemma chat_non_string_message_is_500_witness :
  chat backend_hi
    (mkChatBody (JStr (lit "s")) (JNum 42) JUndefined JUndefined) 5 6
    one_session
  = (one_session,
     status_json 500
       (Error "Erro ao processar mensagem"
          (Some (lit "message.trim is not a function"))),
     []).
Proof.
  apply chat_non_string_message_is_500; try reflexivity. discriminate.
Defined.

Lemma served_temperatures_in_range_witness :
  (0 <= 2)%Q /\ (2 <= 2)%Q.
Proof.
  apply (served_temperatures_in_range
           [(PostNew (lit "s"), 0);
            (PutConfig (lit "s") JUndefined (JNum 3), 1);
            (PutConfig (lit "s") JUndefined (JNum 2), 2);
            (PostChat backend_down
               (mkChatBody (JStr (lit "s")) (JStr (lit "hello")) (JStr (lit "hot"))
                  JUndefined) 6, 5)]
           (lit "s")
           (mkSession [] default_system_prompt 2 0 0)).
  vm_compute. reflexivity.
Defined.
